(** * A shallow embedding of the core of the solicit HTTP/2 library

    Frames, sessions, streams and the client and server adapters of
    [solicit::http], with the parts of [HttpConnection], [DefaultStream]
    and [DefaultSessionState] that the adapters call. *)

From Stdlib Require Import ZArith List Bool Lia.
Import ListNotations.
Open Scope Z_scope.

(* ------------------------------------------------------------------ *)
(** ** Basic types *)

(** A byte ([u8]) is a [Z] in [0, 256). *)
Definition byte := Z.

(** [StreamId] is a [u32] of which 31 bits are used. *)
Definition StreamId := Z.

(** A header is a (name, value) pair of byte strings. *)
Definition Header := (list byte * list byte)%type.

(** Integer casts of Rust, with their wrap-around written out. *)
Definition as_u8 (x : Z) : Z := x mod 2 ^ 8.
Definition as_u32 (x : Z) : Z := x mod 2 ^ 32.
Definition as_u64 (x : Z) : Z := x mod 2 ^ 64.

(** Errors of [HttpResult]. *)
Inductive HttpError :=
| IoError
| InvalidFrame
| CompressionError
| UnableToConnect
| PeerConnectionError.

Inductive HttpResult (A : Type) :=
| Ok (a : A)
| Err (e : HttpError).
Arguments Ok {A} a.
Arguments Err {A} e.

(** A [&mut self] method returning [HttpResult<A>]: it threads the state
    [S], and a failure keeps the effects made before it (the [try!] of the
    source returns early with the error). *)
Definition StM (S A : Type) := S -> S * HttpResult A.

Definition ret {S A} (a : A) : StM S A := fun s => (s, Ok a).

Definition fail {S A} (e : HttpError) : StM S A := fun s => (s, Err e).

Definition bindM {S A B} (m : StM S A) (k : A -> StM S B) : StM S B :=
  fun s => match m s with
           | (s', Ok a) => k a s'
           | (s', Err e) => (s', Err e)
           end.

Notation "'try!' x <- m ;; k" := (bindM m (fun x => k))
  (at level 200, x name, m at level 100, k at level 200).

Definition get {S} : StM S S := fun s => (s, Ok s).

Definition put {S} (s : S) : StM S unit := fun _ => (s, Ok tt).

(* ------------------------------------------------------------------ *)
(** ** The frame builder and raw frames *)

(** [FrameHeader]: (payload length, type, flags, stream id). *)
Definition FrameHeader := (Z * Z * Z * Z)%type.

(** Modelled from the spec: [FrameBuilder::write_u32] of [http/frame]
    (not under src/), a big-endian 4-byte write. *)
Definition write_u32 (x : Z) : list byte :=
  [as_u8 (Z.shiftr x 24); as_u8 (Z.shiftr x 16); as_u8 (Z.shiftr x 8); as_u8 x].

(** Modelled from the spec: [pack_header] / [FrameBuilder::write_header]
    of [http/frame] (not under src/): 3 bytes of length, the type, the
    flags and 4 bytes of stream id whose top (reserved) bit is written as 0. *)
Definition pack_header (h : FrameHeader) : list byte :=
  let '(length, frame_type, flags, stream_id) := h in
  [as_u8 (Z.shiftr length 16); as_u8 (Z.shiftr length 8); as_u8 length;
   frame_type; flags;
   as_u8 (Z.land (Z.shiftr stream_id 24) 127); as_u8 (Z.shiftr stream_id 16);
   as_u8 (Z.shiftr stream_id 8); as_u8 stream_id].

(** Modelled from the spec: the [unpack_octets_4!] macro of [http/frame]
    (not under src/): a big-endian 4-byte read at [offset], each byte widened
    before it is shifted. *)
Definition unpack_octets_4 (buf : list byte) (offset : nat) : Z :=
  Z.lor (Z.lor (Z.lor (Z.shiftl (nth offset buf 0) 24)
                      (Z.shiftl (nth (offset + 1) buf 0) 16))
               (Z.shiftl (nth (offset + 2) buf 0) 8))
        (nth (offset + 3) buf 0).

(** Modelled from the spec: [unpack_header] of [http/frame] (not under
    src/), the inverse layout of [pack_header]; the reserved bit is dropped. *)
Definition unpack_header (buf : list byte) : FrameHeader :=
  let b i := nth i buf 0 in
  (Z.lor (Z.lor (Z.shiftl (b 0%nat) 16) (Z.shiftl (b 1%nat) 8)) (b 2%nat),
   b 3%nat, b 4%nat,
   Z.lor (Z.lor (Z.lor (Z.shiftl (Z.land (b 5%nat) 127) 24) (Z.shiftl (b 6%nat) 16))
                (Z.shiftl (b 7%nat) 8)) (b 8%nat)).

(** [RawFrame]: a header and the payload that follows it. *)
Record RawFrame := mkRawFrame {
  raw_header : FrameHeader;
  raw_payload : list byte;
}.

(** Modelled from the spec: [RawFrame::parse] of [http/frame] (not under
    src/): a 9-byte header, then exactly [length] bytes of payload. *)
Definition raw_frame_parse (buf : list byte) : option RawFrame :=
  if (length buf <? 9)%nat then None
  else
    let header := unpack_header (firstn 9 buf) in
    let '(len, _, _, _) := header in
    let rest := skipn 9 buf in
    if Z.of_nat (length rest) <? len then None
    else Some (mkRawFrame header (firstn (Z.to_nat len) rest)).

(* ------------------------------------------------------------------ *)
(** ** [http/frame/ping.rs] *)

Module Ping.

Definition PING_FRAME_LEN : Z := 8.
Definition PING_FRAME_TYPE : Z := 6.

(** [PingFlag::Ack.bitmask()] *)
Definition PING_ACK : Z := 1.

Record PingFrame := mkPingFrame {
  opaque_data : Z;   (* u64 *)
  flags : Z;         (* u8 *)
}.

Definition new : PingFrame := mkPingFrame 0 0.

Definition new_ack (opaque : Z) : PingFrame := mkPingFrame opaque 1.

Definition with_data (opaque : Z) : PingFrame := mkPingFrame opaque 0.

(** [Frame::is_set] *)
Definition is_set (f : PingFrame) (mask : Z) : bool :=
  negb (Z.land mask (flags f) =? 0).

Definition is_ack (f : PingFrame) : bool := is_set f PING_ACK.

Definition get_header (f : PingFrame) : FrameHeader :=
  (PING_FRAME_LEN, PING_FRAME_TYPE, flags f, 0).

Definition from_raw (raw : RawFrame) : option PingFrame :=
  let '(payload_len, frame_type, fl, stream_id) := raw_header raw in
  if negb (payload_len =? PING_FRAME_LEN) then None
  else if negb (frame_type =? PING_FRAME_TYPE) then None
  else if negb (stream_id =? 0) then None
  else
    let data := Z.lor (as_u64 (Z.shiftl (unpack_octets_4 (raw_payload raw) 0) 32))
                      (unpack_octets_4 (raw_payload raw) 4) in
    Some (mkPingFrame data fl).

(** [serialize_into] on a byte-collecting [FrameBuilder]. *)
Definition serialize_into (f : PingFrame) : list byte :=
  pack_header (get_header f)
  ++ write_u32 (as_u32 (Z.shiftr (opaque_data f) 32))
  ++ write_u32 (as_u32 (opaque_data f)).

(** A well-formed PING frame: a [u64] of data and a [u8] of flags. *)
Definition well_formed (f : PingFrame) : Prop :=
  0 <= opaque_data f < 2 ^ 64 /\ 0 <= flags f < 2 ^ 8.

End Ping.

(** Parsing a byte buffer as a PING frame: [RawFrame::parse] followed by
    [PingFrame::from_raw]. *)
Definition parse_ping (buf : list byte) : option Ping.PingFrame :=
  match raw_frame_parse buf with
  | Some raw => Ping.from_raw raw
  | None => None
  end.

(* ------------------------------------------------------------------ *)
(** ** Streams *)

(** Modelled from the spec: [DefaultStream] and the provided methods of the
    [Stream] trait of [http/session] (not under src/): optional received
    headers (a second [set_headers] replaces them), the appended body, a
    local-closed and a remote-closed flag, and the outbound data staged by
    the server. [close] closes both directions, [close_remote] the remote
    one, and [is_closed] holds when both are closed. *)
Module DefaultStream.

Record t := mk {
  id : StreamId;
  headers : option (list Header);
  body : list byte;
  closed_local : bool;
  closed_remote : bool;
  data : option (list byte);
}.

(** [Stream::new] / [DefaultStream::with_id] *)
Definition with_id (stream_id : StreamId) : t :=
  mk stream_id None [] false false None.

Definition new_data_chunk (chunk : list byte) (s : t) : t :=
  mk (id s) (headers s) (body s ++ chunk) (closed_local s) (closed_remote s) (data s).

Definition set_headers (hs : list Header) (s : t) : t :=
  mk (id s) (Some hs) (body s) (closed_local s) (closed_remote s) (data s).

Definition close (s : t) : t :=
  mk (id s) (headers s) (body s) true true (data s).

Definition close_local (s : t) : t :=
  mk (id s) (headers s) (body s) true (closed_remote s) (data s).

Definition close_remote (s : t) : t :=
  mk (id s) (headers s) (body s) (closed_local s) true (data s).

Definition is_closed (s : t) : bool := closed_local s && closed_remote s.

Definition is_closed_local (s : t) : bool := closed_local s.

Definition is_closed_remote (s : t) : bool := closed_remote s.

(** [DefaultStream::set_full_data]: stage the whole response body. *)
Definition set_full_data (d : list byte) (s : t) : t :=
  mk (id s) (headers s) (body s) (closed_local s) (closed_remote s) (Some d).

End DefaultStream.

(* ------------------------------------------------------------------ *)
(** ** Session state *)

(** Modelled from the spec: [DefaultSessionState] of [http/session] (not
    under src/), an ordered mapping from stream ids to streams whose
    iteration order is the insertion order. *)
Module SessionState.

Definition t := list (StreamId * DefaultStream.t).

Definition new : t := [].

Fixpoint get_stream_ref (st : t) (stream_id : StreamId) : option DefaultStream.t :=
  match st with
  | [] => None
  | (i, s) :: rest => if i =? stream_id then Some s else get_stream_ref rest stream_id
  end.

(** [get_stream_mut]: the stream found, and the state with that stream
    written back (the [&mut] borrow). *)
Fixpoint get_stream_mut (st : t) (stream_id : StreamId)
  : option (DefaultStream.t * (DefaultStream.t -> t)) :=
  match st with
  | [] => None
  | (i, s) :: rest =>
      if i =? stream_id then Some (s, fun s' => (i, s') :: rest)
      else match get_stream_mut rest stream_id with
           | Some (found, put) => Some (found, fun s' => (i, s) :: put s')
           | None => None
           end
  end.

(** [insert_stream]: keyed by the stream's own id; refused (the state is
    left as it is) when that id is already present. *)
Definition insert_stream (s : DefaultStream.t) (st : t) : t :=
  match get_stream_ref st (DefaultStream.id s) with
  | Some _ => st
  | None => st ++ [(DefaultStream.id s, s)]
  end.

(** [get_closed]: removes all closed streams and yields them in insertion
    order. *)
Definition get_closed (st : t) : list DefaultStream.t * t :=
  (map snd (filter (fun p => DefaultStream.is_closed (snd p)) st),
   filter (fun p => negb (DefaultStream.is_closed (snd p))) st).

Definition iter (st : t) : list (StreamId * DefaultStream.t) := st.

End SessionState.

(** The [Session] trait: the callbacks the connection invokes. *)
Class Session (S : Type) := {
  session_new_data_chunk : S -> StreamId -> list byte -> S;
  session_new_headers : S -> StreamId -> list Header -> S;
  session_end_of_stream : S -> StreamId -> S;
}.

(* ------------------------------------------------------------------ *)
(** ** [http/client.rs]: [ClientSession] *)

Module ClientSession.

Record t := mk { state : SessionState.t }.

Definition new : t := mk SessionState.new.

Definition get_stream (cs : t) (stream_id : StreamId) : option DefaultStream.t :=
  SessionState.get_stream_ref (state cs) stream_id.

Definition new_stream (cs : t) (stream_id : StreamId) : t :=
  mk (SessionState.insert_stream (DefaultStream.with_id stream_id) (state cs)).

Definition get_closed (cs : t) : list DefaultStream.t * t :=
  let '(closed, rest) := SessionState.get_closed (state cs) in (closed, mk rest).

Definition new_data_chunk (cs : t) (stream_id : StreamId) (d : list byte) : t :=
  match SessionState.get_stream_mut (state cs) stream_id with
  | None => cs
  | Some (stream, put) => mk (put (DefaultStream.new_data_chunk d stream))
  end.

Definition new_headers (cs : t) (stream_id : StreamId) (hs : list Header) : t :=
  match SessionState.get_stream_mut (state cs) stream_id with
  | None => cs
  | Some (stream, put) => mk (put (DefaultStream.set_headers hs stream))
  end.

Definition end_of_stream (cs : t) (stream_id : StreamId) : t :=
  match SessionState.get_stream_mut (state cs) stream_id with
  | None => cs
  | Some (stream, put) => mk (put (DefaultStream.close stream))
  end.

End ClientSession.

#[export] Instance ClientSession_Session : Session ClientSession.t := {
  session_new_data_chunk := ClientSession.new_data_chunk;
  session_new_headers := ClientSession.new_headers;
  session_end_of_stream := ClientSession.end_of_stream;
}.

(* ------------------------------------------------------------------ *)
(** ** [http/server.rs]: [StreamFactory] and [ServerSession] *)

(** [StreamFactory::create]: mints the stream of a new client-initiated
    stream id; the factory may keep state of its own. *)
Class StreamFactory (F : Type) := {
  create : F -> StreamId -> F * DefaultStream.t;
}.

Module ServerSession.

Record t (F : Type) := mk { state : SessionState.t; factory : F }.
Arguments mk {F} state factory.
Arguments state {F} t.
Arguments factory {F} t.

Section WithFactory.
Context {F : Type} `{StreamFactory F}.

Definition new_data_chunk (ss : t F) (stream_id : StreamId) (d : list byte) : t F :=
  match SessionState.get_stream_mut (state ss) stream_id with
  | None => ss
  | Some (stream, put) => mk (put (DefaultStream.new_data_chunk d stream)) (factory ss)
  end.

Definition new_headers (ss : t F) (stream_id : StreamId) (hs : list Header) : t F :=
  match SessionState.get_stream_mut (state ss) stream_id with
  | Some (stream, put) =>
      (* trailers *)
      mk (put (DefaultStream.set_headers hs stream)) (factory ss)
  | None =>
      let '(f', stream) := create (factory ss) stream_id in
      let stream := DefaultStream.set_headers hs stream in
      mk (SessionState.insert_stream stream (state ss)) f'
  end.

Definition end_of_stream (ss : t F) (stream_id : StreamId) : t F :=
  match SessionState.get_stream_mut (state ss) stream_id with
  | None => ss
  | Some (stream, put) => mk (put (DefaultStream.close_remote stream)) (factory ss)
  end.

End WithFactory.

End ServerSession.

#[export] Instance ServerSession_Session {F} `{StreamFactory F}
  : Session (ServerSession.t F) := {
  session_new_data_chunk := ServerSession.new_data_chunk;
  session_new_headers := ServerSession.new_headers;
  session_end_of_stream := ServerSession.end_of_stream;
}.

(** A stream factory that records every id it is asked for, as the tests'
    [TestStreamFactory] with a call log. *)
Record CallLog := mkCallLog { calls : list StreamId }.

#[export] Instance CallLog_StreamFactory : StreamFactory CallLog := {
  create log stream_id :=
    (mkCallLog (calls log ++ [stream_id]), DefaultStream.with_id stream_id);
}.

(* ------------------------------------------------------------------ *)
(** ** Typed frames *)

(** Modelled from the spec: the DATA, HEADERS, SETTINGS and GOAWAY frames
    of [http/frame] (not under src/), with the flag bits of the spec. *)
Module DataFrame.
Record t := mk { stream_id : StreamId; data : list byte; flags : Z }.
Definition END_STREAM : Z := 1.
Definition new (sid : StreamId) : t := mk sid [] 0.
Definition is_end_of_stream (f : t) : bool := negb (Z.land END_STREAM (flags f) =? 0).
End DataFrame.

Module HeadersFrame.
Record t := mk { stream_id : StreamId; header_fragment : list byte; flags : Z }.
Definition END_STREAM : Z := 1.
Definition END_HEADERS : Z := 4.
Definition is_end_of_stream (f : t) : bool := negb (Z.land END_STREAM (flags f) =? 0).
Definition is_headers_end (f : t) : bool := negb (Z.land END_HEADERS (flags f) =? 0).
End HeadersFrame.

Module SettingsFrame.
Record t := mk { flags : Z; settings : list (Z * Z) }.
Definition ACK : Z := 1.
Definition new : t := mk 0 [].
Definition new_ack : t := mk ACK [].
Definition is_ack (f : t) : bool := negb (Z.land ACK (flags f) =? 0).
Definition SETTINGS_FRAME_TYPE : Z := 4.

(** The payload: 6-byte (u16 identifier, u32 value) entries. *)
Fixpoint parse_settings (payload : list byte) : list (Z * Z) :=
  match payload with
  | b0 :: b1 :: b2 :: b3 :: b4 :: b5 :: rest =>
      (Z.lor (Z.shiftl b0 8) b1, unpack_octets_4 [b2; b3; b4; b5] 0)
        :: parse_settings rest
  | _ => []
  end.

(** Stream id 0; an ACK carries no payload; otherwise the payload is a
    whole number of 6-byte entries. *)
Definition from_raw (raw : RawFrame) : option t :=
  let '(len, frame_type, fl, stream_id) := raw_header raw in
  if negb (frame_type =? SETTINGS_FRAME_TYPE) then None
  else if negb (stream_id =? 0) then None
  else if negb (Z.land ACK fl =? 0) then
    (if len =? 0 then Some (mk fl []) else None)
  else if negb (len mod 6 =? 0) then None
  else Some (mk fl (parse_settings (raw_payload raw))).
End SettingsFrame.

Module GoawayFrame.
Record t := mk { last_stream_id : StreamId; error_code : Z; debug_data : list byte }.
End GoawayFrame.

(** [HttpFrame]: a frame of any type; WINDOW_UPDATE, RST_STREAM and frames
    of unknown type are carried raw. *)
Inductive HttpFrame :=
| DataFrame (f : DataFrame.t)
| HeadersFrame (f : HeadersFrame.t)
| SettingsFrame (f : SettingsFrame.t)
| PingFrame (f : Ping.PingFrame)
| GoawayFrame (f : GoawayFrame.t)
| UnknownFrame (raw : RawFrame).

(* ------------------------------------------------------------------ *)
(** ** The connection engine *)

(** An in-memory [SendFrame]: the frames enqueued so far; a [broken]
    sender stands for a transport whose writes fail. *)
Record Sender := mkSender { sent : list HttpFrame; broken : bool }.

Definition send_frame_on (s : Sender) (f : HttpFrame) : Sender * HttpResult unit :=
  if broken s then (s, Err IoError) else (mkSender (sent s ++ [f]) false, Ok tt).

(** Modelled from the spec: [HttpConnection] of [http/connection] (not
    under src/): the sender, the receiver (a queue of frames, as the
    in-memory [ReceiveFrame] of the spec) and whether a GOAWAY was received. *)
Record HttpConnection := mkConn {
  sender : Sender;
  receiver : list HttpFrame;
  goaway : bool;
}.

Section Connection.

(** The HPACK encoder and decoder: opaque to the core. *)
Variable hpack_encode : list Header -> list byte.
Variable hpack_decode : list byte -> option (list Header).

(** Modelled from the spec: a received GOAWAY surfaces as an error on the
    next send; a transport error bubbles up unchanged. *)
Definition send_frame (f : HttpFrame) : StM HttpConnection unit :=
  fun c =>
    if goaway c then (c, Err PeerConnectionError)
    else let '(s', r) := send_frame_on (sender c) f in
         (mkConn s' (receiver c) (goaway c), r).

(** Modelled from the spec: [send_headers] emits one HEADERS frame with
    END_HEADERS set and END_STREAM set iff [end_stream]. *)
Definition send_headers (headers : list Header) (stream_id : StreamId) (end_stream : bool)
  : StM HttpConnection unit :=
  let fl := Z.lor HeadersFrame.END_HEADERS
                  (if end_stream then HeadersFrame.END_STREAM else 0) in
  send_frame (HeadersFrame (HeadersFrame.mk stream_id (hpack_encode headers) fl)).

(** Modelled from the spec: [send_data] emits one DATA frame carrying the
    whole buffer, END_STREAM set iff [end_stream]. *)
Definition send_data (d : list byte) (stream_id : StreamId) (end_stream : bool)
  : StM HttpConnection unit :=
  send_frame (DataFrame (DataFrame.mk stream_id d
                           (if end_stream then DataFrame.END_STREAM else 0))).

(** Modelled from the spec: pulling the next frame; an exhausted receiver
    is a transport error. *)
Definition recv_frame : StM HttpConnection HttpFrame :=
  fun c =>
    match receiver c with
    | [] => (c, Err IoError)
    | f :: rest => (mkConn (sender c) rest (goaway c), Ok f)
    end.

(** Lifts a connection step to a step on the pair (connection, session). *)
Definition on_conn {Sess A} (m : StM HttpConnection A) : StM (HttpConnection * Sess) A :=
  fun '(c, sess) => let '(c', r) := m c in ((c', sess), r).

Definition on_session {Sess} (g : Sess -> Sess) : StM (HttpConnection * Sess) unit :=
  fun '(c, sess) => ((c, g sess), Ok tt).

Context {Sess : Type} `{Session Sess}.

(** Modelled from the spec: the dispatch of [handle_next_frame]. *)
Definition handle_frame (frame : HttpFrame) : StM (HttpConnection * Sess) unit :=
  match frame with
  | DataFrame f =>
      try! _ <- on_session (fun s =>
                  session_new_data_chunk s (DataFrame.stream_id f) (DataFrame.data f)) ;;
      if DataFrame.is_end_of_stream f
      then on_session (fun s => session_end_of_stream s (DataFrame.stream_id f))
      else ret tt
  | HeadersFrame f =>
      match hpack_decode (HeadersFrame.header_fragment f) with
      | None => fail CompressionError
      | Some hs =>
          try! _ <- on_session (fun s => session_new_headers s (HeadersFrame.stream_id f) hs) ;;
          if HeadersFrame.is_end_of_stream f
          then on_session (fun s => session_end_of_stream s (HeadersFrame.stream_id f))
          else ret tt
      end
  | SettingsFrame f =>
      if SettingsFrame.is_ack f then ret tt
      else on_conn (send_frame (SettingsFrame SettingsFrame.new_ack))
  | PingFrame f =>
      if Ping.is_ack f then ret tt
      else on_conn (send_frame (PingFrame (Ping.new_ack (Ping.opaque_data f))))
  | GoawayFrame _ =>
      on_conn (fun c => (mkConn (sender c) (receiver c) true, Ok tt))
  | UnknownFrame _ => ret tt
  end.

Definition handle_next_frame : StM (HttpConnection * Sess) unit :=
  try! frame <- on_conn recv_frame ;;
  handle_frame frame.

(** Modelled from the spec: [expect_settings] pulls one frame and fails
    unless it is a non-ACK SETTINGS frame (with [UnableToConnect], the
    variant named in [ClientConnection::read_preface]); it then processes it. *)
Definition expect_settings : StM (HttpConnection * Sess) unit :=
  try! frame <- on_conn recv_frame ;;
  match frame with
  | SettingsFrame f =>
      if SettingsFrame.is_ack f then fail UnableToConnect else handle_frame frame
  | _ => fail UnableToConnect
  end.

End Connection.

(** The stream a DATA or HEADERS frame belongs to; 0 for the others. *)
Definition frame_stream_id (f : HttpFrame) : StreamId :=
  match f with
  | DataFrame d => DataFrame.stream_id d
  | HeadersFrame h => HeadersFrame.stream_id h
  | _ => 0
  end.

(** A connection whose next send goes through: no GOAWAY received and a
    transport that accepts writes. *)
Definition can_send (c : HttpConnection) : bool :=
  negb (goaway c) && negb (broken (sender c)).

Definition is_ok {A} (r : HttpResult A) : bool :=
  match r with Ok _ => true | Err _ => false end.

(* ------------------------------------------------------------------ *)
(** ** [http/client.rs]: [ClientConnection] *)

(** [http::Request] *)
Module Request.
Record t := mk { stream_id : StreamId; headers : list Header; body : list byte }.
End Request.

Module ClientConnection.

Record t (Sess : Type) := mk { conn : HttpConnection; session : Sess }.
Arguments mk {Sess} conn session.
Arguments conn {Sess} t.
Arguments session {Sess} t.

Section WithHpack.
Variable hpack_encode : list Header -> list byte.
Variable hpack_decode : list byte -> option (list Header).
Context {Sess : Type} `{Session Sess}.

(** Runs a step of the [HttpConnection] on [self.conn]. *)
Definition on_conn {A} (m : StM HttpConnection A) : StM (t Sess) A :=
  fun cc => let '(c', r) := m (conn cc) in (mk c' (session cc), r).

(** Runs a step of the [HttpConnection] given [&mut self.session]. *)
Definition with_session {A} (m : StM (HttpConnection * Sess) A) : StM (t Sess) A :=
  fun cc => let '((c', s'), r) := m (conn cc, session cc) in (mk c' s', r).

Definition read_preface : StM (t Sess) unit :=
  with_session (expect_settings hpack_decode).

Definition init : StM (t Sess) unit :=
  try! _ <- read_preface ;;
  ret tt.

Definition send_request (req : Request.t) : StM (t Sess) unit :=
  let end_of_stream := (length (Request.body req) =? 0)%nat in
  try! _ <- on_conn (send_headers hpack_encode (Request.headers req)
                                  (Request.stream_id req) end_of_stream) ;;
  try! _ <- (if negb end_of_stream
             then on_conn (send_data (Request.body req) (Request.stream_id req) true)
             else ret tt) ;;
  ret tt.

Definition handle_next_frame : StM (t Sess) unit :=
  with_session (handle_next_frame hpack_decode).

End WithHpack.

End ClientConnection.

(* ------------------------------------------------------------------ *)
(** ** Transport streams *)

(** A [TransportStream]: the bytes still to be read, the frames written so
    far (their serialization is left to the sender), whether [try_split]
    succeeds and whether writes succeed. *)
Module Transport.

Record t := mk {
  input : list byte;
  output : list HttpFrame;
  split_ok : bool;
  write_ok : bool;
}.

(** [read_exact]: fails when fewer than [n] bytes are left. *)
Definition read_exact (ts : t) (n : nat) : HttpResult (list byte * t) :=
  if (length (input ts) <? n)%nat then Err IoError
  else Ok (firstn n (input ts), mk (skipn n (input ts)) (output ts) (split_ok ts) (write_ok ts)).

(** [try_split]: a second handle on the same stream; reads go through it. *)
Definition try_split (ts : t) : HttpResult t :=
  if split_ok ts then Ok ts else Err IoError.

(** [SendFrame] for a transport stream. *)
Definition send_frame (ts : t) (f : HttpFrame) : HttpResult t :=
  if write_ok ts then Ok (mk (input ts) (output ts ++ [f]) (split_ok ts) (write_ok ts))
  else Err IoError.

(** Modelled from the spec: [TransportReceiveFrame::recv_frame] (not under
    src/): a 9-byte header, then the payload it announces. *)
Definition recv_raw_frame (ts : t) : HttpResult (RawFrame * t) :=
  match read_exact ts 9 with
  | Err e => Err e
  | Ok (hdr, ts1) =>
      let '(len, ty, fl, sid) := unpack_header hdr in
      match read_exact ts1 (Z.to_nat len) with
      | Err e => Err e
      | Ok (payload, ts2) => Ok (mkRawFrame (len, ty, fl, sid) payload, ts2)
      end
  end.

End Transport.

(** The outcome of a Rust call that may also panic. *)
Inductive Outcome (A : Type) :=
| Returned (r : HttpResult A)
| Panicked.
Arguments Returned {A} r.
Arguments Panicked {A}.

Fixpoint bytes_eqb (a b : list byte) : bool :=
  match a, b with
  | [], [] => true
  | x :: a', y :: b' => (x =? y) && bytes_eqb a' b'
  | _, _ => false
  end.

(** ["PRI * HTTP/2.0\r\n\r\nSM\r\n\r\n"] *)
Definition CLIENT_PREFACE : list byte :=
  [80; 82; 73; 32; 42; 32; 72; 84; 84; 80; 47; 50; 46; 48; 13; 10; 13; 10;
   83; 77; 13; 10; 13; 10].

(* ------------------------------------------------------------------ *)
(** ** [server/mod.rs]: [SimpleServer] *)

(** [DefaultStream::get_data_chunk], modelled from the spec (the stream
    code is not under src/): when the stream is not closed locally and has
    staged data, draw up to [n] bytes; when that drains the staged data the
    stream is closed locally and the chunk is the last one. *)
Inductive StreamDataChunk :=
| Chunk (d : list byte)
| Last (d : list byte)
| Unavailable.

Definition get_data_chunk (n : nat) (s : DefaultStream.t) : StreamDataChunk * DefaultStream.t :=
  if DefaultStream.closed_local s then (Unavailable, s) else
  match DefaultStream.data s with
  | None => (Unavailable, s)
  | Some d =>
      let chunk := firstn n d in
      match skipn n d with
      | [] => (Last chunk, DefaultStream.close_local (DefaultStream.set_full_data [] s))
      | rest => (Chunk chunk, DefaultStream.set_full_data rest s)
      end
  end.

(** Modelled from the spec: the stock prioritizer. It scans the streams in
    insertion order and draws the next chunk from the first stream that has
    one; the result is the stream id, the chunk, whether it ends the stream,
    and the updated state. *)
Fixpoint get_next_chunk (n : nat) (st : SessionState.t)
  : option (StreamId * list byte * bool * SessionState.t) :=
  match st with
  | [] => None
  | (i, s) :: rest =>
      match get_data_chunk n s with
      | (Unavailable, _) =>
          match get_next_chunk n rest with
          | Some (j, c, e, rest') => Some (j, c, e, (i, s) :: rest')
          | None => None
          end
      | (Chunk c, s') => Some (i, c, false, (i, s') :: rest)
      | (Last c, s') => Some (i, c, true, (i, s') :: rest)
      end
  end.

Definition MAX_CHUNK_SIZE : nat := 8 * 1024.

(** [SimpleFactory]: mints a fresh [DefaultStream::with_id]. *)
Inductive SimpleFactory := SimpleFactoryV.

#[export] Instance SimpleFactory_StreamFactory : StreamFactory SimpleFactory := {
  create f stream_id := (f, DefaultStream.with_id stream_id);
}.

(** Modelled from the spec: the server side [expect_settings] of
    [http/server] (not under src/, [server/mod.rs] is of a later API than
    [http/server.rs]): receive one frame; unless it is a non-ACK SETTINGS
    frame fail with [UnableToConnect] (a malformed SETTINGS frame with
    [InvalidFrame]); otherwise process it, which sends the ACK. *)
Definition server_expect_settings (receiver sender : Transport.t)
  : HttpResult (Transport.t * Transport.t) :=
  match Transport.recv_raw_frame receiver with
  | Err e => Err e
  | Ok (raw, receiver') =>
      match SettingsFrame.from_raw raw with
      | Some f =>
          if SettingsFrame.is_ack f then Err UnableToConnect
          else match Transport.send_frame sender (SettingsFrame SettingsFrame.new_ack) with
               | Err e => Err e
               | Ok sender' => Ok (receiver', sender')
               end
      | None =>
          let '(_, ty, _, _) := raw_header raw in
          if ty =? SettingsFrame.SETTINGS_FRAME_TYPE then Err InvalidFrame
          else Err UnableToConnect
      end
  end.

(** Modelled from the spec: the server side [send_settings]. *)
Definition server_send_settings (sender : Transport.t) : HttpResult Transport.t :=
  Transport.send_frame sender (SettingsFrame SettingsFrame.new).

Module SimpleServer.

(** The connection's session state, the receiving and the sending half of
    the transport (the handler is passed to the calls that run it). *)
Record t := mk {
  state : SessionState.t;
  receiver : Transport.t;
  sender : Transport.t;
}.

(** [SimpleServer::new]. The [read_exact(..).unwrap()] of the preface
    panics on a short read. *)
Definition new (stream : Transport.t) : Outcome t :=
  match Transport.read_exact stream 24 with
  | Err _ => Panicked
  | Ok (preface, stream) =>
      if negb (bytes_eqb preface CLIENT_PREFACE) then Returned (Err UnableToConnect)
      else
        match Transport.try_split stream with
        | Err e => Returned (Err e)
        | Ok receiver =>
            let sender := stream in
            match server_send_settings sender with
            | Err e => Returned (Err e)
            | Ok sender =>
                match server_expect_settings receiver sender with
                | Err e => Returned (Err e)
                | Ok (receiver, sender) => Returned (Ok (mk SessionState.new receiver sender))
                end
            end
        end
  end.

Record ServerRequest := mkServerRequest {
  req_stream_id : StreamId;
  req_headers : list Header;
  req_body : list byte;
}.

Record Response := mkResponse {
  resp_headers : list Header;
  resp_body : list byte;
  resp_stream_id : StreamId;
}.

(** The [map] of [handle_requests]: [None] is the panic of
    [stream.headers.as_ref().unwrap()]. *)
Fixpoint collect_responses (handler : ServerRequest -> Response)
    (closed : list (StreamId * DefaultStream.t)) : option (list Response) :=
  match closed with
  | [] => Some []
  | (stream_id, stream) :: rest =>
      match DefaultStream.headers stream with
      | None => None
      | Some hs =>
          let resp := handler (mkServerRequest stream_id hs (DefaultStream.body stream)) in
          match collect_responses handler rest with
          | Some resps => Some (resp :: resps)
          | None => None
          end
      end
  end.

(** [handle_requests]: the handler runs on every stream closed remotely. *)
Definition handle_requests (handler : ServerRequest -> Response) (st : SessionState.t)
  : option (list Response) :=
  collect_responses handler
    (filter (fun p : StreamId * DefaultStream.t => DefaultStream.is_closed_remote (snd p))
            (SessionState.iter st)).

(** The state part of one iteration of [prepare_responses]: stage the body
    into the response's stream; [None] is the panic of
    [get_stream_mut(..).unwrap()]. *)
Definition stage_response (st : SessionState.t) (response : Response) : option SessionState.t :=
  match SessionState.get_stream_mut st (resp_stream_id response) with
  | None => None
  | Some (stream, put) => Some (put (DefaultStream.set_full_data (resp_body response) stream))
  end.

(** The state part of [reap_streams]. *)
Definition reap_streams (st : SessionState.t) : SessionState.t :=
  snd (SessionState.get_closed st).

(** Modelled from the spec: [ServerConnection::start_response] of the
    [http/server] that [server/mod.rs] is written against (not under src/):
    one HEADERS frame written to the sender, END_HEADERS set, END_STREAM set
    iff asked for. *)
Section WithHpack.
Variable hpack_encode : list Header -> list byte.

Definition start_response (headers : list Header) (stream_id : StreamId) (end_stream : bool)
    (sender : Transport.t) : HttpResult Transport.t :=
  let fl := Z.lor HeadersFrame.END_HEADERS
                  (if end_stream then HeadersFrame.END_STREAM else 0) in
  Transport.send_frame sender
    (HeadersFrame (HeadersFrame.mk stream_id (hpack_encode headers) fl)).

(** [prepare_responses]: for each response, send its headers (without
    END_STREAM), then stage its body in its stream; [Panicked] is the panic
    of [get_stream_mut(..).unwrap()]. *)
Fixpoint prepare_responses (st : SessionState.t) (sender : Transport.t)
    (responses : list Response) : Outcome (SessionState.t * Transport.t) :=
  match responses with
  | [] => Returned (Ok (st, sender))
  | response :: rest =>
      match start_response (resp_headers response) (resp_stream_id response) false sender with
      | Err e => Returned (Err e)
      | Ok sender =>
          match stage_response st response with
          | None => Panicked
          | Some st => prepare_responses st sender rest
          end
      end
  end.

End WithHpack.

End SimpleServer.

(** Every change [SimpleServer] makes to its session state: a session
    callback run by [handle_next_frame] on a received frame, the staging of
    a response by [prepare_responses], a chunk drawn by [flush_streams],
    and [reap_streams]. *)
Inductive server_step : SessionState.t -> SessionState.t -> Prop :=
| step_new_headers st stream_id hs :
    server_step st (ServerSession.state
      (ServerSession.new_headers (ServerSession.mk st SimpleFactoryV) stream_id hs))
| step_new_data_chunk st stream_id d :
    server_step st (ServerSession.state
      (ServerSession.new_data_chunk (ServerSession.mk st SimpleFactoryV) stream_id d))
| step_end_of_stream st stream_id :
    server_step st (ServerSession.state
      (ServerSession.end_of_stream (ServerSession.mk st SimpleFactoryV) stream_id))
| step_stage_response st response st' :
    SimpleServer.stage_response st response = Some st' -> server_step st st'
| step_send_next_data st stream_id chunk end_stream st' :
    get_next_chunk MAX_CHUNK_SIZE st = Some (stream_id, chunk, end_stream, st') ->
    server_step st st'
| step_reap st : server_step st (SimpleServer.reap_streams st).

(** The states a [SimpleServer] can reach from the empty state of [new]. *)
Inductive server_reachable : SessionState.t -> Prop :=
| reach_new : server_reachable SessionState.new
| reach_step st st' : server_reachable st -> server_step st st' -> server_reachable st'.

(** The next frame of a byte stream is a SETTINGS frame without ACK. *)
Definition next_frame_is_nonack_settings (input : list byte) : bool :=
  match Transport.recv_raw_frame (Transport.mk input [] true true) with
  | Ok (raw, _) =>
      match SettingsFrame.from_raw raw with
      | Some f => negb (SettingsFrame.is_ack f)
      | None => false
      end
  | Err _ => false
  end.

Definition outcome_ok {A} (o : Outcome A) : bool :=
  match o with Returned (Ok _) => true | _ => false end.

(** Whether the first frame waiting on the connection is a SETTINGS frame
    without the ACK flag. *)
Definition first_frame_is_nonack_settings (c : HttpConnection) : bool :=
  match receiver c with
  | SettingsFrame f :: _ => negb (SettingsFrame.is_ack f)
  | _ => false
  end.

(** Every stream of the state has its headers set. *)
Definition all_headers_set (st : SessionState.t) : Prop :=
  forall stream_id s, In (stream_id, s) st -> DefaultStream.headers s <> None.

(* ------------------------------------------------------------------ *)
(** ** [http/server.rs]: [ServerConnection] *)

(** [EndStream] of [http/connection]. *)
Inductive EndStream := EndStreamYes | EndStreamNo.

Definition end_stream_flag (e : EndStream) : bool :=
  match e with EndStreamYes => true | EndStreamNo => false end.

(** [SendStatus] of [http/connection]. *)
Inductive SendStatus := Sent | Nothing.

Module ServerConnection.

Record t (F : Type) := mk { conn : HttpConnection; state : SessionState.t; factory : F }.
Arguments mk {F} conn state factory.
Arguments conn {F} t.
Arguments state {F} t.
Arguments factory {F} t.

Section WithHpack.
Variable hpack_encode : list Header -> list byte.
Variable hpack_decode : list byte -> option (list Header).
Context {F : Type} `{StreamFactory F}.

(** Runs a step of [self.conn]. *)
Definition on_conn {A} (m : StM HttpConnection A) : StM (t F) A :=
  fun sc => let '(c', r) := m (conn sc) in (mk c' (state sc) (factory sc), r).

(** Runs a step of [self.conn] given a [ServerSession] over
    [&mut self.state] and [&mut self.factory]. *)
Definition with_session {A} (m : StM (HttpConnection * ServerSession.t F) A) : StM (t F) A :=
  fun sc =>
    let '((c', ss), r) := m (conn sc, ServerSession.mk (state sc) (factory sc)) in
    (mk c' (ServerSession.state ss) (ServerSession.factory ss), r).

Definition read_preface : StM (t F) unit :=
  with_session (expect_settings hpack_decode).

(** [init]: the server's SETTINGS goes straight to [self.conn.sender]
    (not through [HttpConnection::send_frame]), then the client's
    SETTINGS is read. *)
Definition init : StM (t F) unit :=
  try! _ <- on_conn (fun c =>
              let '(s', r) := send_frame_on (sender c) (SettingsFrame SettingsFrame.new) in
              (mkConn s' (receiver c) (goaway c), r)) ;;
  try! _ <- read_preface ;;
  ret tt.

Definition handle_next_frame : StM (t F) unit :=
  with_session (handle_next_frame hpack_decode).

Definition start_response (headers : list Header) (stream_id : StreamId) (end_stream : EndStream)
  : StM (t F) unit :=
  on_conn (send_headers hpack_encode headers stream_id (end_stream_flag end_stream)).

(** [send_next_data] with the [SimplePrioritizer] over [self.state] and an
    8 KiB buffer. Modelled from the spec: [HttpConnection::send_next_data]
    (not under src/) sends the chunk the prioritizer yields as one DATA
    frame, END_STREAM as the prioritizer says, and answers [Sent]; it
    answers [Nothing] when the prioritizer has no chunk. The chunk is drawn
    from the stream before the frame is sent. *)
Definition send_next_data : StM (t F) SendStatus :=
  fun sc =>
    match get_next_chunk MAX_CHUNK_SIZE (state sc) with
    | None => (sc, Ok Nothing)
    | Some (stream_id, chunk, end_stream, st') =>
        let '(c', r) := send_data chunk stream_id end_stream (conn sc) in
        (mk c' st' (factory sc), match r with Ok _ => Ok Sent | Err e => Err e end)
    end.

End WithHpack.

End ServerConnection.

(* ------------------------------------------------------------------ *)
(** ** Sample inputs *)

(** The preface followed by an empty SETTINGS frame. *)
Definition preface_and_settings : list byte :=
  CLIENT_PREFACE ++ [0; 0; 0; 4; 0; 0; 0; 0; 0].

(** A request on stream 1: its HEADERS, a DATA chunk and the end of the
    stream. *)
Definition one_request_state : SessionState.t :=
  ServerSession.state (ServerSession.end_of_stream (ServerSession.mk
    (ServerSession.state (ServerSession.new_data_chunk (ServerSession.mk
      (ServerSession.state (ServerSession.new_headers
         (ServerSession.mk SessionState.new SimpleFactoryV) 1 [([58; 112], [47])]))
      SimpleFactoryV) 1 [65]))
    SimpleFactoryV) 1).

(** A PING frame on the wire: header (length 8, type 6, no flags, stream
    0) and the payload bytes 1 to 8. *)
Definition ping_example_bytes : list byte :=
  [0; 0; 8; 6; 0; 0; 0; 0; 0; 1; 2; 3; 4; 5; 6; 7; 8].

(** A handler that answers each request with its own body. *)
Definition echo_handler (req : SimpleServer.ServerRequest) : SimpleServer.Response :=
  SimpleServer.mkResponse [] (SimpleServer.req_body req) (SimpleServer.req_stream_id req).

(** A fresh server connection whose peer opens with a DATA frame instead
    of its SETTINGS. *)
Definition data_first_connection : ServerConnection.t SimpleFactory :=
  ServerConnection.mk (mkConn (mkSender [] false) [DataFrame (DataFrame.mk 1 [] 0)] false)
    [] SimpleFactoryV.

(** A server connection with one stream that has 10000 bytes staged. *)
Definition staged_connection : ServerConnection.t SimpleFactory :=
  ServerConnection.mk (mkConn (mkSender [] false) [] false)
    [(1, DefaultStream.mk 1 (Some []) [] false true (Some (repeat 7 (100 * 100))))] SimpleFactoryV.

(* ================================================================== *)
(** * Proofs *)

(** ** Bit-level facts about the big-endian codec *)

Lemma testbit_above_width x w i :
  0 <= w -> 0 <= x < 2 ^ w -> w <= i -> Z.testbit x i = false.
Proof.
  intros Hw Hx Hi. rewrite <- (Z.mod_small x (2 ^ w)) by lia.
  apply Z.mod_pow2_bits_high; lia.
Qed.

(** Pushes [Z.testbit] through [lor], shifts and [mod 2^k], and settles
    the index comparisons that the current case split decides. *)
Ltac bits_simpl :=
  repeat first
    [ rewrite Z.lor_spec
    | rewrite Z.testbit_mod_pow2 by lia
    | rewrite Z.shiftr_spec by lia
    | rewrite Z.shiftl_spec by lia
    | rewrite Z.sub_add
    | match goal with
      | |- context [ Z.testbit _ ?j ] =>
          rewrite (Z.testbit_neg_r _ j) by lia
      | |- context [ (?a <? ?b) ] =>
          first [ rewrite (proj2 (Z.ltb_lt a b)) by lia
                | rewrite (proj2 (Z.ltb_ge a b)) by lia ]
      end ];
  rewrite ?orb_false_l, ?orb_false_r, ?andb_true_l, ?andb_false_l.

(** Splits on the position of bit [i] with respect to the given bounds. *)
Ltac split_at i bounds :=
  match bounds with
  | nil => idtac
  | cons ?b ?rest => destruct (Z.ltb_spec i b); [|split_at i rest]
  end.

Lemma unpack_write_u32 x : 0 <= x < 2 ^ 32 ->
  unpack_octets_4 (write_u32 x) 0 = x.
Proof.
  intros Hx. unfold unpack_octets_4, write_u32, as_u8; cbn [nth Nat.add].
  apply Z.bits_inj'; intros i Hi.
  split_at i [8; 16; 24; 32]; bits_simpl; try reflexivity.
  rewrite (testbit_above_width x 32 i) by lia. reflexivity.
Qed.

Lemma u64_halves d : 0 <= d < 2 ^ 64 ->
  Z.lor (as_u64 (Z.shiftl (as_u32 (Z.shiftr d 32)) 32)) (as_u32 d) = d.
Proof.
  intros Hd. unfold as_u64, as_u32.
  apply Z.bits_inj'; intros i Hi.
  split_at i [32; 64]; bits_simpl; try reflexivity.
  rewrite (testbit_above_width d 64 i) by lia. reflexivity.
Qed.

Lemma as_u32_range x : 0 <= as_u32 x < 2 ^ 32.
Proof. unfold as_u32. apply Z.mod_pos_bound. lia. Qed.

Lemma unpack_octets_4_app0 a l :
  unpack_octets_4 (write_u32 a ++ l) 0 = unpack_octets_4 (write_u32 a) 0.
Proof. reflexivity. Qed.

Lemma unpack_octets_4_app4 a l :
  unpack_octets_4 (write_u32 a ++ l) 4 = unpack_octets_4 l 0.
Proof. reflexivity. Qed.

Lemma raw_frame_parse_ping f :
  raw_frame_parse (Ping.serialize_into f) =
  Some (mkRawFrame (8, 6, Ping.flags f, 0)
          (write_u32 (as_u32 (Z.shiftr (Ping.opaque_data f) 32))
           ++ write_u32 (as_u32 (Ping.opaque_data f)))).
Proof. reflexivity. Qed.

(** ** C8: PING frames round-trip *)

(** C8: for every well-formed PING frame (a [u64] of opaque data, a [u8]
    of flags), serializing it with [serialize_into] and parsing the bytes
    back with [RawFrame::parse] and [PingFrame::from_raw] gives the frame. *)
Theorem ping_parse_serialize (f : Ping.PingFrame) :
  Ping.well_formed f -> parse_ping (Ping.serialize_into f) = Some f.
Proof.
  destruct f as [d fl]; intros [Hd Hfl].
  unfold parse_ping. rewrite raw_frame_parse_ping.
  unfold Ping.from_raw; cbn [raw_header raw_payload Ping.flags Ping.opaque_data].
  rewrite unpack_octets_4_app0, unpack_octets_4_app4, !unpack_write_u32
    by apply as_u32_range.
  rewrite u64_halves by exact Hd. reflexivity.
Qed.

Lemma ping_parse_serialize_witness :
  Ping.well_formed (Ping.mkPingFrame 72623859790382856 0) /\
  parse_ping (Ping.serialize_into (Ping.mkPingFrame 72623859790382856 0)) =
  Some (Ping.mkPingFrame 72623859790382856 0).
Proof.
  assert (H : Ping.well_formed (Ping.mkPingFrame 72623859790382856 0))
    by (unfold Ping.well_formed; simpl; lia).
  split; [exact H | apply (ping_parse_serialize _ H)].
Defined.

(** ** The session state *)

Lemma get_stream_mut_none st i :
  SessionState.get_stream_mut st i = None <-> SessionState.get_stream_ref st i = None.
Proof.
  induction st as [|[j s] st IH]; simpl; [tauto|].
  destruct (j =? i); [split; discriminate|].
  destruct (SessionState.get_stream_mut st i) as [[x put]|]; split; intro H.
  - discriminate.
  - apply IH in H. discriminate.
  - apply IH. reflexivity.
  - reflexivity.
Qed.

(** A stream found by [get_stream_mut] sits after a prefix of other ids;
    writing back replaces it in place. *)
Lemma get_stream_mut_some st i s put :
  SessionState.get_stream_mut st i = Some (s, put) ->
  exists pre post,
    st = pre ++ (i, s) :: post /\
    (forall j, In j (map fst pre) -> j <> i) /\
    (forall s', put s' = pre ++ (i, s') :: post).
Proof.
  revert put; induction st as [|[j x] st IH]; intros put H; simpl in H.
  - discriminate.
  - destruct (Z.eqb_spec j i) as [->|Hji].
    + injection H as <- <-. exists [], st. simpl. repeat split; auto.
    + destruct (SessionState.get_stream_mut st i) as [[y put']|] eqn:E;
        [|discriminate].
      injection H as <- <-.
      destruct (IH put' eq_refl) as (pre & post & -> & Hpre & Hput).
      exists ((j, x) :: pre), post. simpl. repeat split.
      * intros k [<-|Hk]; [exact Hji|exact (Hpre k Hk)].
      * intro s'. rewrite Hput. reflexivity.
Qed.

Lemma get_stream_ref_mut st i s :
  SessionState.get_stream_ref st i = Some s ->
  exists put, SessionState.get_stream_mut st i = Some (s, put).
Proof.
  induction st as [|[j x] st IH]; simpl; [discriminate|].
  destruct (j =? i).
  - intros [= ->]. eexists. reflexivity.
  - intro H. destruct (IH H) as [put ->]. eexists. reflexivity.
Qed.

Lemma filter_all {A} (p : A -> bool) l :
  (forall x, In x l -> p x = true) -> filter p l = l.
Proof.
  induction l as [|x l IH]; simpl; intros H; [reflexivity|].
  rewrite (H x (or_introl eq_refl)), IH; auto.
Qed.

Lemma filter_none {A} (p : A -> bool) l :
  (forall x, In x l -> p x = false) -> filter p l = [].
Proof.
  induction l as [|x l IH]; simpl; intros H; [reflexivity|].
  rewrite (H x (or_introl eq_refl)), IH; auto.
Qed.

(** ** C5: [ServerSession::new_headers] *)

(** C5: on a stream id absent from the state, [new_headers] calls the
    factory once with that id, sets the headers on the stream it returns and
    appends that stream to the state; on a present id it replaces that
    stream's headers in place, leaving the factory and the other streams
    untouched. The factory is assumed to honour the [StreamFactory::create]
    contract of minting a stream with the given id. *)
Theorem server_new_headers_spec {F} `{StreamFactory F}
    (ss : ServerSession.t F) (stream_id : StreamId) (hs : list Header) :
  DefaultStream.id (snd (create (ServerSession.factory ss) stream_id)) = stream_id ->
  match SessionState.get_stream_ref (ServerSession.state ss) stream_id with
  | None =>
      let '(f', s) := create (ServerSession.factory ss) stream_id in
      ServerSession.new_headers ss stream_id hs =
        ServerSession.mk (ServerSession.state ss
                          ++ [(stream_id, DefaultStream.set_headers hs s)]) f'
  | Some s =>
      exists pre post,
        ServerSession.state ss = pre ++ (stream_id, s) :: post /\
        ServerSession.new_headers ss stream_id hs =
          ServerSession.mk (pre ++ (stream_id, DefaultStream.set_headers hs s) :: post)
                           (ServerSession.factory ss)
  end.
Proof.
  intros Hid. unfold ServerSession.new_headers.
  destruct (SessionState.get_stream_ref (ServerSession.state ss) stream_id)
    as [s|] eqn:Hget.
  - destruct (get_stream_ref_mut _ _ _ Hget) as [put Hmut]. rewrite Hmut.
    destruct (get_stream_mut_some _ _ _ _ Hmut) as (pre & post & Hst & _ & Hput).
    exists pre, post. split; [exact Hst|]. rewrite Hput. reflexivity.
  - rewrite (proj2 (get_stream_mut_none _ _) Hget).
    destruct (create (ServerSession.factory ss) stream_id) as [f' s] eqn:Hc.
    simpl in Hid. unfold SessionState.insert_stream. simpl.
    rewrite Hid, Hget. reflexivity.
Qed.

Lemma server_new_headers_spec_witness :
  DefaultStream.id (snd (create (mkCallLog []) 1)) = 1 /\
  ServerSession.new_headers (ServerSession.mk SessionState.new (mkCallLog [])) 1
    [([58; 109], [71; 69; 84])] =
  ServerSession.mk
    [(1, DefaultStream.set_headers [([58; 109], [71; 69; 84])] (DefaultStream.with_id 1))]
    (mkCallLog [1]).
Proof.
  split; [reflexivity|].
  exact (server_new_headers_spec (ServerSession.mk SessionState.new (mkCallLog [])) 1
           [([58; 109], [71; 69; 84])] eq_refl).
Defined.

(** ** C6: harvesting the stream that ended *)

(** C6: in a client session with unique stream ids, in which no stream other
    than [stream_id] is closed, delivering [end_of_stream(stream_id)] and
    then calling [get_closed] yields exactly that stream (closed), once, and
    leaves the other streams in the session in their insertion order. *)
Theorem client_end_of_stream_get_closed (cs : ClientSession.t) (stream_id : StreamId)
    (s : DefaultStream.t) :
  NoDup (map fst (ClientSession.state cs)) ->
  ClientSession.get_stream cs stream_id = Some s ->
  (forall i s', In (i, s') (ClientSession.state cs) -> i <> stream_id ->
                DefaultStream.is_closed s' = false) ->
  ClientSession.get_closed (ClientSession.end_of_stream cs stream_id) =
    ([DefaultStream.close s],
     ClientSession.mk (filter (fun p : StreamId * DefaultStream.t => negb (fst p =? stream_id)) (ClientSession.state cs))).
Proof.
  intros Hnd Hget Hopen. destruct cs as [st]; cbn in *.
  unfold ClientSession.end_of_stream, ClientSession.get_closed; cbn.
  destruct (get_stream_ref_mut _ _ _ Hget) as [put Hmut]. rewrite Hmut.
  destruct (get_stream_mut_some _ _ _ _ Hmut) as (pre & post & -> & Hpre & Hput).
  rewrite Hput. cbn.
  rewrite map_app in Hnd. cbn in Hnd.
  apply NoDup_remove_2 in Hnd. rewrite in_app_iff in Hnd.
  assert (Hpost : forall j, In j (map fst post) -> j <> stream_id)
    by (intros j Hj ->; apply Hnd; right; exact Hj).
  assert (Hkeys : forall l, (forall j, In j (map fst l) -> j <> stream_id) ->
            (forall p, In p l -> In p (pre ++ (stream_id, s) :: post)) ->
            filter (fun p => DefaultStream.is_closed (snd p)) l = [] /\
            filter (fun p => negb (DefaultStream.is_closed (snd p))) l = l /\
            filter (fun p : StreamId * DefaultStream.t => negb (fst p =? stream_id)) l = l).
  { intros l Hl Hin. repeat split.
    - apply filter_none. intros [i x] Hix. apply (Hopen i x (Hin _ Hix)).
      apply Hl. apply (in_map fst _ _ Hix).
    - apply filter_all. intros [i x] Hix. cbn.
      rewrite (Hopen i x (Hin _ Hix)); [reflexivity|].
      apply Hl. apply (in_map fst _ _ Hix).
    - apply filter_all. intros [i x] Hix. cbn.
      destruct (Z.eqb_spec i stream_id) as [E|E]; [|reflexivity].
      exfalso. apply (Hl i); [apply (in_map fst _ _ Hix)|exact E]. }
  destruct (Hkeys pre Hpre) as (Hc1 & Hc2 & Hc3).
  { intros p Hp. apply in_or_app. left. exact Hp. }
  destruct (Hkeys post Hpost) as (Hd1 & Hd2 & Hd3).
  { intros p Hp. apply in_or_app. right. right. exact Hp. }
  rewrite !filter_app, Hc1, Hc2, Hc3. cbn [filter].
  rewrite Hd1, Hd2, Hd3. cbn. rewrite Z.eqb_refl. reflexivity.
Qed.

Lemma client_end_of_stream_get_closed_witness :
  let cs := ClientSession.new_data_chunk
              (ClientSession.new_stream
                 (ClientSession.new_headers
                    (ClientSession.new_data_chunk
                       (ClientSession.new_stream ClientSession.new 1) 1 [1; 2; 3; 4])
                    1 [([58; 109], [71; 69; 84])]) 3) 3 [100] in
  NoDup (map fst (ClientSession.state cs)) /\
  ClientSession.get_closed (ClientSession.end_of_stream cs 1) =
    ([DefaultStream.close
        (DefaultStream.mk 1 (Some [([58; 109], [71; 69; 84])]) [1; 2; 3; 4] false false None)],
     ClientSession.mk [(3, DefaultStream.mk 3 None [100] false false None)]).
Proof.
  cbv zeta.
  assert (Hnd : NoDup (map fst (ClientSession.state
     (ClientSession.new_data_chunk
        (ClientSession.new_stream
           (ClientSession.new_headers
              (ClientSession.new_data_chunk
                 (ClientSession.new_stream ClientSession.new 1) 1 [1; 2; 3; 4])
              1 [([58; 109], [71; 69; 84])]) 3) 3 [100]))))
    by (cbn; repeat constructor; cbn; intuition discriminate).
  split; [exact Hnd|].
  apply (client_end_of_stream_get_closed _ 1 _ Hnd); [reflexivity|].
  cbn. intros i s' [[= <- <-]|[[= <- <-]|[]]]; intro Hi; [congruence|reflexivity].
Defined.

(** ** C9: callbacks on unknown stream ids *)

(** Client side: [new_data_chunk], [new_headers] and [end_of_stream] on a
    stream id the client session does not hold leave the session as it is. *)
Lemma client_unknown_stream_unchanged (cs : ClientSession.t) (stream_id : StreamId)
    (d : list byte) (hs : list Header) :
  ClientSession.get_stream cs stream_id = None ->
  ClientSession.new_data_chunk cs stream_id d = cs /\
  ClientSession.new_headers cs stream_id hs = cs /\
  ClientSession.end_of_stream cs stream_id = cs.
Proof.
  intros Hnone. apply get_stream_mut_none in Hnone.
  unfold ClientSession.new_data_chunk, ClientSession.new_headers,
    ClientSession.end_of_stream.
  rewrite Hnone. repeat split.
Qed.

(** Server side: [new_data_chunk] and [end_of_stream] on a stream id the
    server session does not hold leave the state and the factory as they are. *)
Lemma server_unknown_stream_unchanged {F} `{StreamFactory F}
    (ss : ServerSession.t F) (stream_id : StreamId) (d : list byte) :
  SessionState.get_stream_ref (ServerSession.state ss) stream_id = None ->
  ServerSession.new_data_chunk ss stream_id d = ss /\
  ServerSession.end_of_stream ss stream_id = ss.
Proof.
  intros Hnone. apply get_stream_mut_none in Hnone.
  unfold ServerSession.new_data_chunk, ServerSession.end_of_stream.
  rewrite Hnone. split; reflexivity.
Qed.

(** C9: every session callback delivered for a stream id absent from the
    session state ([new_data_chunk], [new_headers] and [end_of_stream] of
    [ClientSession]; [new_data_chunk] and [end_of_stream] of [ServerSession])
    returns (the callbacks return [()], with no error) and leaves the session
    exactly as it was. *)
Theorem unknown_stream_callbacks_unchanged :
  (forall (cs : ClientSession.t) (stream_id : StreamId) (d : list byte) (hs : list Header),
     ClientSession.get_stream cs stream_id = None ->
     ClientSession.new_data_chunk cs stream_id d = cs /\
     ClientSession.new_headers cs stream_id hs = cs /\
     ClientSession.end_of_stream cs stream_id = cs) /\
  (forall (F : Type) (HF : StreamFactory F) (ss : ServerSession.t F)
          (stream_id : StreamId) (d : list byte),
     SessionState.get_stream_ref (ServerSession.state ss) stream_id = None ->
     ServerSession.new_data_chunk ss stream_id d = ss /\
     ServerSession.end_of_stream ss stream_id = ss).
Proof.
  split.
  - exact client_unknown_stream_unchanged.
  - intros F HF. exact server_unknown_stream_unchanged.
Qed.

Lemma unknown_stream_callbacks_unchanged_witness :
  ClientSession.get_stream (ClientSession.new_stream ClientSession.new 1) 3 = None /\
  ClientSession.new_data_chunk (ClientSession.new_stream ClientSession.new 1) 3 [7] =
    ClientSession.new_stream ClientSession.new 1 /\
  SessionState.get_stream_ref [(1, DefaultStream.with_id 1)] 3 = None /\
  ServerSession.end_of_stream (ServerSession.mk [(1, DefaultStream.with_id 1)] (mkCallLog [1])) 3 =
    ServerSession.mk [(1, DefaultStream.with_id 1)] (mkCallLog [1]).
Proof.
  assert (Hc : ClientSession.get_stream (ClientSession.new_stream ClientSession.new 1) 3 = None)
    by reflexivity.
  assert (Hs : SessionState.get_stream_ref [(1, DefaultStream.with_id 1)] 3 = None)
    by reflexivity.
  split; [exact Hc|]. split.
  - exact (proj1 (proj1 unknown_stream_callbacks_unchanged _ 3 [7] [] Hc)).
  - split; [exact Hs|].
    exact (proj2 (proj2 unknown_stream_callbacks_unchanged _ _
             (ServerSession.mk [(1, DefaultStream.with_id 1)] (mkCallLog [1])) 3 [] Hs)).
Defined.

(** ** The connection engine *)

Lemma send_frame_can_send c f :
  can_send c = true ->
  send_frame f c =
    (mkConn (mkSender (sent (sender c) ++ [f]) false) (receiver c) (goaway c), Ok tt).
Proof.
  destruct c as [[s b] r g]; unfold can_send; cbn.
  destruct g, b; cbn; congruence.
Qed.

Lemma send_frame_sent c f :
  exists extra, sent (sender (fst (send_frame f c))) = sent (sender c) ++ extra /\
                (extra = [] \/ extra = [f]) /\
                receiver (fst (send_frame f c)) = receiver c.
Proof.
  destruct c as [[s b] r g]; unfold send_frame, send_frame_on; cbn.
  destruct g; [exists []; rewrite app_nil_r; auto|].
  destruct b; cbn; [exists []; rewrite app_nil_r; auto|exists [f]; auto].
Qed.

(** ** C1: [send_request] does not allocate a stream *)

(** C1 (as amended): [send_request] sends only on the stream id the caller
    put in the request: every frame it adds to the outbound queue carries
    [req.stream_id], whatever its parity; it leaves the session as it was
    (no stream is inserted), and its result is [()] or an error, not a
    [StreamId]. *)
Theorem send_request_uses_given_stream_id {Sess} `{Session Sess}
    (hpack_encode : list Header -> list byte)
    (cc : ClientConnection.t Sess) (req : Request.t) :
  let '(cc', r) := ClientConnection.send_request hpack_encode req cc in
  ClientConnection.session cc' = ClientConnection.session cc /\
  (r = Ok tt \/ exists e, r = Err e) /\
  exists extra,
    sent (sender (ClientConnection.conn cc')) =
      sent (sender (ClientConnection.conn cc)) ++ extra /\
    (forall f, In f extra -> frame_stream_id f = Request.stream_id req).
Proof.
  destruct cc as [[[s b] rcv g] sess], req as [sid hs body].
  unfold ClientConnection.send_request, ClientConnection.on_conn, bindM, ret,
    send_headers, send_data, send_frame, send_frame_on; cbn.
  destruct g; cbn.
  { repeat split; [right; eexists; reflexivity|].
    exists []. rewrite app_nil_r. split; [reflexivity|intros f []]. }
  destruct b; cbn.
  { repeat split; [right; eexists; reflexivity|].
    exists []. rewrite app_nil_r. split; [reflexivity|intros f []]. }
  destruct body as [|x body]; cbn.
  - repeat split; [left; reflexivity|].
    eexists. split; [reflexivity|]. intros f [<-|[]]. reflexivity.
  - repeat split; [left; reflexivity|].
    eexists. split; [rewrite <- app_assoc; reflexivity|].
    intros f [<-|[<-|[]]]; reflexivity.
Qed.

(** C1 fails as stated: on a fresh client session, a request whose
    [stream_id] is 2 goes out on the even stream 2, and afterwards the
    session holds no stream at all (no odd id was allocated and no stream
    inserted); the call returns [()]. *)
Lemma send_request_allocates_counterexample :
  let cc := ClientConnection.mk (mkConn (mkSender [] false) [] false) ClientSession.new in
  let '(cc', r) :=
    ClientConnection.send_request (fun _ => []) (Request.mk 2 [] []) cc in
  r = Ok tt /\
  map frame_stream_id (sent (sender (ClientConnection.conn cc'))) = [2] /\
  Z.odd 2 = false /\
  ~ (exists sid, Z.odd sid = true /\
       ClientSession.get_stream (ClientConnection.session cc') sid <> None).
Proof.
  cbn. repeat split. intros (sid & _ & Hs). apply Hs. reflexivity.
Qed.

(** ** C2: the frames of [send_request] *)

(** C2: on a connection that can send, [send_request] emits one HEADERS
    frame on the request's stream, carrying the encoded headers, with
    END_HEADERS set and END_STREAM set exactly when the body is empty; when
    the body is not empty it is followed by one DATA frame carrying the
    whole body with END_STREAM set; nothing else is emitted and the call
    returns [Ok(())]. *)
Theorem send_request_frames {Sess} `{Session Sess}
    (hpack_encode : list Header -> list byte)
    (cc : ClientConnection.t Sess) (req : Request.t) :
  can_send (ClientConnection.conn cc) = true ->
  exists hf,
    HeadersFrame.stream_id hf = Request.stream_id req /\
    HeadersFrame.header_fragment hf = hpack_encode (Request.headers req) /\
    HeadersFrame.is_headers_end hf = true /\
    HeadersFrame.is_end_of_stream hf = (length (Request.body req) =? 0)%nat /\
    ClientConnection.send_request hpack_encode req cc =
      (ClientConnection.mk
         (mkConn (mkSender (sent (sender (ClientConnection.conn cc))
                            ++ HeadersFrame hf
                            :: match Request.body req with
                               | [] => []
                               | _ => [DataFrame (DataFrame.mk (Request.stream_id req)
                                                   (Request.body req)
                                                   DataFrame.END_STREAM)]
                               end) false)
                 (receiver (ClientConnection.conn cc)) false)
         (ClientConnection.session cc), Ok tt).
Proof.
  destruct cc as [[[s b] rcv g] sess], req as [sid hs body].
  unfold can_send; cbn. intros Hcs.
  destruct g, b; cbn in Hcs; try discriminate.
  destruct body as [|x body]; cbn.
  - exists (HeadersFrame.mk sid (hpack_encode hs) 5). repeat split.
  - exists (HeadersFrame.mk sid (hpack_encode hs) 4). repeat split.
    unfold ClientConnection.send_request; cbn. rewrite <- app_assoc. reflexivity.
Qed.


Lemma send_request_frames_witness :
  let cc := ClientConnection.mk (mkConn (mkSender [] false) [] false) ClientSession.new in
  let req := Request.mk 1 [([58; 109], [71; 69; 84])] [1; 2; 3] in
  let enc := fun _ : list Header => [1] in
  can_send (ClientConnection.conn cc) = true /\
  exists hf,
    HeadersFrame.stream_id hf = Request.stream_id req /\
    HeadersFrame.header_fragment hf = enc (Request.headers req) /\
    HeadersFrame.is_headers_end hf = true /\
    HeadersFrame.is_end_of_stream hf = (length (Request.body req) =? 0)%nat /\
    ClientConnection.send_request enc req cc =
      (ClientConnection.mk
         (mkConn (mkSender (sent (sender (ClientConnection.conn cc))
                            ++ HeadersFrame hf
                            :: match Request.body req with
                               | [] => []
                               | _ => [DataFrame (DataFrame.mk (Request.stream_id req)
                                                   (Request.body req)
                                                   DataFrame.END_STREAM)]
                               end) false)
                 (receiver (ClientConnection.conn cc)) false)
         (ClientConnection.session cc), Ok tt).
Proof.
  intros cc req enc. split; [reflexivity|].
  exact (send_request_frames enc cc req eq_refl).
Defined.

(** ** C4: client initialization *)

(** C4 (as amended): [ClientConnection::init] succeeds exactly when the
    first frame received is a non-ACK SETTINGS frame and the SETTINGS ACK it
    then sends goes through; on success that ACK is the one frame it has
    sent. So a first frame that is not a non-ACK SETTINGS frame (or no frame
    at all) is an error, and so is a failed send of the ACK. *)
Theorem client_init_result {Sess} `{Session Sess}
    (hpack_decode : list byte -> option (list Header)) (cc : ClientConnection.t Sess) :
  let '(cc', r) := ClientConnection.init hpack_decode cc in
  is_ok r = first_frame_is_nonack_settings (ClientConnection.conn cc)
            && can_send (ClientConnection.conn cc) /\
  (is_ok r = true ->
   sent (sender (ClientConnection.conn cc')) =
     sent (sender (ClientConnection.conn cc)) ++ [SettingsFrame SettingsFrame.new_ack]).
Proof.
  destruct cc as [[[s b] rcv g] sess].
  unfold ClientConnection.init, ClientConnection.read_preface,
    ClientConnection.with_session, expect_settings, first_frame_is_nonack_settings,
    can_send, bindM, on_conn, recv_frame, ret, fail, handle_frame, send_frame,
    send_frame_on; cbn.
  destruct rcv as [|fr rest]; cbn; [split; [reflexivity|discriminate]|].
  destruct fr as [f|f|f|f|f|f]; cbn; try (split; [reflexivity|discriminate]).
  destruct (SettingsFrame.is_ack f); cbn; [split; [reflexivity|discriminate]|].
  destruct g, b; cbn; (split; [reflexivity|]); try discriminate; reflexivity.
Qed.

(** C4 fails as stated: the first frame is a non-ACK SETTINGS frame, but
    the transport refuses the write of the SETTINGS ACK, and [init] returns
    that I/O error instead of [Ok]. *)
Lemma client_init_counterexample :
  let cc := ClientConnection.mk (mkConn (mkSender [] true)
                                        [SettingsFrame SettingsFrame.new] false)
                                ClientSession.new in
  first_frame_is_nonack_settings (ClientConnection.conn cc) = true /\
  snd (ClientConnection.init (fun _ => None) cc) = Err IoError.
Proof. split; reflexivity. Qed.

(** ** C7: PING acknowledgement *)

(** C7: when the next frame is a PING without ACK carrying opaque data [D],
    [handle_next_frame] (on a connection that can send) enqueues exactly one
    frame, a PING with ACK set carrying [D], leaves the session alone and
    returns [Ok(())]. *)
Theorem ping_ack_reply {Sess} `{Session Sess}
    (hpack_decode : list byte -> option (list Header))
    (c : HttpConnection) (sess : Sess) (f : Ping.PingFrame) (rest : list HttpFrame) :
  receiver c = PingFrame f :: rest ->
  Ping.is_ack f = false ->
  can_send c = true ->
  handle_next_frame hpack_decode (c, sess) =
    ((mkConn (mkSender (sent (sender c)
                        ++ [PingFrame (Ping.new_ack (Ping.opaque_data f))]) false) rest false,
      sess), Ok tt) /\
  Ping.is_ack (Ping.new_ack (Ping.opaque_data f)) = true /\
  Ping.opaque_data (Ping.new_ack (Ping.opaque_data f)) = Ping.opaque_data f.
Proof.
  destruct c as [[s b] rcv g]; cbn. intros -> Hack Hcs.
  unfold can_send in Hcs; cbn in Hcs.
  destruct g, b; cbn in Hcs; try discriminate.
  unfold handle_next_frame, bindM, on_conn, recv_frame, handle_frame; cbn.
  rewrite Hack. repeat split.
Qed.

Lemma ping_ack_reply_witness :
  let c := mkConn (mkSender [] false) [PingFrame (Ping.with_data 72623859790382856)] false in
  can_send c = true /\
  handle_next_frame (fun _ => None) (c, ClientSession.new) =
    ((mkConn (mkSender [PingFrame (Ping.new_ack 72623859790382856)] false) [] false,
      ClientSession.new), Ok tt) /\
  Ping.is_ack (Ping.new_ack 72623859790382856) = true /\
  Ping.opaque_data (Ping.new_ack 72623859790382856) = 72623859790382856.
Proof.
  intros c. split; [reflexivity|].
  exact (ping_ack_reply (fun _ => None) c ClientSession.new
           (Ping.with_data 72623859790382856) [] eq_refl eq_refl eq_refl).
Defined.

(* ------------------------------------------------------------------ *)
(** ** C3: server initialization *)

(** Receiving a frame depends only on the bytes still to be read. *)
Lemma recv_raw_frame_input (ts : Transport.t) :
  Transport.recv_raw_frame ts =
  match Transport.recv_raw_frame (Transport.mk (Transport.input ts) [] true true) with
  | Ok (raw, ts') =>
      Ok (raw, Transport.mk (Transport.input ts') (Transport.output ts)
                 (Transport.split_ok ts) (Transport.write_ok ts))
  | Err e => Err e
  end.
Proof.
  destruct ts as [inp out so wo].
  unfold Transport.recv_raw_frame, Transport.read_exact; cbn [Transport.input Transport.output].
  destruct (length inp <? 9)%nat; [reflexivity|].
  destruct (unpack_header (firstn 9 inp)) as [[[len ty] fl] sid];
    cbn [Transport.input Transport.output Transport.split_ok Transport.write_ok].
  destruct (length (skipn 9 inp) <? Z.to_nat len)%nat; reflexivity.
Qed.

Lemma bytes_eqb_eq a b : bytes_eqb a b = true <-> a = b.
Proof.
  revert b; induction a as [|x a IH]; intros [|y b]; cbn; try (split; congruence).
  rewrite andb_true_iff, Z.eqb_eq, IH; split; [intros [-> ->]; reflexivity|].
  intros H; inversion H; auto.
Qed.

(** C3 (as amended): once 24 bytes are there to be read, [SimpleServer::new]
    returns (it does not panic) and succeeds exactly when those bytes are the
    client preface, the transport splits, its writes go through and the next
    frame is a SETTINGS frame without ACK. A wrong preface gives
    [UnableToConnect]. On success the server has written its own SETTINGS
    frame and then the ACK of the client's SETTINGS. *)
Theorem simple_server_new_result (stream : Transport.t) :
  (24 <= length (Transport.input stream))%nat ->
  match SimpleServer.new stream with
  | Panicked => False
  | Returned r =>
      is_ok r = bytes_eqb (firstn 24 (Transport.input stream)) CLIENT_PREFACE
                && Transport.split_ok stream && Transport.write_ok stream
                && next_frame_is_nonack_settings (skipn 24 (Transport.input stream))
      /\ (bytes_eqb (firstn 24 (Transport.input stream)) CLIENT_PREFACE = false ->
          r = Err UnableToConnect)
      /\ (forall srv, r = Ok srv ->
          Transport.output (SimpleServer.sender srv) =
          Transport.output stream ++
            [SettingsFrame SettingsFrame.new; SettingsFrame SettingsFrame.new_ack])
  end.
Proof.
  intros Hlen.
  destruct stream as [inp out so wo]; cbn [Transport.input Transport.output
    Transport.split_ok Transport.write_ok] in *.
  unfold SimpleServer.new, Transport.read_exact; cbn [Transport.input Transport.output
    Transport.split_ok Transport.write_ok].
  replace (length inp <? 24)%nat with false by (symmetry; apply Nat.ltb_ge; exact Hlen).
  destruct (bytes_eqb (firstn 24 inp) CLIENT_PREFACE) eqn:Hpre; cbn [negb].
  2:{ cbn. repeat split; discriminate. }
  unfold Transport.try_split; cbn [Transport.split_ok].
  destruct so; cbn [andb].
  2:{ cbn. repeat split; discriminate. }
  unfold server_send_settings, Transport.send_frame; cbn [Transport.write_ok
    Transport.input Transport.output Transport.split_ok].
  destruct wo; cbn [andb].
  2:{ cbn. repeat split; discriminate. }
  unfold server_expect_settings.
  rewrite recv_raw_frame_input; cbn [Transport.input Transport.output
    Transport.split_ok Transport.write_ok].
  unfold next_frame_is_nonack_settings.
  destruct (Transport.recv_raw_frame (Transport.mk (skipn 24 inp) [] true true))
    as [[raw ts']|e].
  2:{ cbn. repeat split; discriminate. }
  destruct (SettingsFrame.from_raw raw) as [f|].
  2:{ destruct (raw_header raw) as [[[len ty] fl] sid];
      destruct (ty =? SettingsFrame.SETTINGS_FRAME_TYPE); cbn; repeat split; discriminate. }
  destruct (SettingsFrame.is_ack f); cbn.
  - repeat split; discriminate.
  - repeat split; [discriminate|].
    intros srv Hsrv; inversion Hsrv; subst; cbn.
    rewrite <- app_assoc; reflexivity.
Qed.

Lemma simple_server_new_result_witness :
  (24 <= length (Transport.input (Transport.mk preface_and_settings [] true true)))%nat /\
  match SimpleServer.new (Transport.mk preface_and_settings [] true true) with
  | Panicked => False
  | Returned r =>
      is_ok r = bytes_eqb (firstn 24 preface_and_settings) CLIENT_PREFACE
                && true && true
                && next_frame_is_nonack_settings (skipn 24 preface_and_settings)
      /\ (bytes_eqb (firstn 24 preface_and_settings) CLIENT_PREFACE = false ->
          r = Err UnableToConnect)
      /\ (forall srv, r = Ok srv ->
          Transport.output (SimpleServer.sender srv) =
          [] ++ [SettingsFrame SettingsFrame.new; SettingsFrame SettingsFrame.new_ack])
  end.
Proof.
  split; [vm_compute; lia|].
  exact (simple_server_new_result (Transport.mk preface_and_settings [] true true)
           ltac:(vm_compute; lia)).
Defined.

(** C3: with the right preface and a non-ACK SETTINGS frame after it,
    [SimpleServer::new] still fails when the transport cannot be split: the
    error comes from [try_split], neither from the preface nor from the
    frame. *)
Lemma simple_server_new_counterexample :
  bytes_eqb (firstn 24 preface_and_settings) CLIENT_PREFACE = true /\
  next_frame_is_nonack_settings (skipn 24 preface_and_settings) = true /\
  SimpleServer.new (Transport.mk preface_and_settings [] false true) = Returned (Err IoError).
Proof. vm_compute; repeat split. Qed.

(* ------------------------------------------------------------------ *)
(** ** C10: the headers of the server's streams *)

Lemma all_headers_set_put st i s put s' :
  all_headers_set st ->
  SessionState.get_stream_mut st i = Some (s, put) ->
  (DefaultStream.headers s <> None -> DefaultStream.headers s' <> None) ->
  all_headers_set (put s').
Proof.
  intros Hall Hmut Hs'.
  destruct (get_stream_mut_some _ _ _ _ Hmut) as (pre & post & Hst & _ & Hput).
  rewrite Hput. intros j x Hin.
  apply in_app_or in Hin as [Hin|[Heq|Hin]].
  - apply (Hall j x). rewrite Hst. apply in_or_app. auto.
  - injection Heq as <- <-. apply Hs'. apply (Hall i s). rewrite Hst.
    apply in_or_app. right. left. reflexivity.
  - apply (Hall j x). rewrite Hst. apply in_or_app. right. right. exact Hin.
Qed.

Lemma get_data_chunk_headers n s :
  DefaultStream.headers (snd (get_data_chunk n s)) = DefaultStream.headers s.
Proof.
  unfold get_data_chunk.
  destruct (DefaultStream.closed_local s); [reflexivity|].
  destruct (DefaultStream.data s) as [d|]; [|reflexivity].
  destruct (skipn n d); reflexivity.
Qed.

Lemma get_next_chunk_headers n st i c e st' :
  all_headers_set st ->
  get_next_chunk n st = Some (i, c, e, st') ->
  all_headers_set st'.
Proof.
  revert i c e st'; induction st as [|[j s] st IH]; intros i c e st' Hall H;
    cbn [get_next_chunk] in H; [discriminate|].
  assert (Hs : DefaultStream.headers s <> None) by (apply (Hall j s); left; reflexivity).
  assert (Hrest : all_headers_set st) by (intros k x Hk; apply (Hall k x); right; exact Hk).
  pose proof (get_data_chunk_headers n s) as Hh.
  destruct (get_data_chunk n s) as [[c0|c0|] s0] eqn:E; cbn [snd] in Hh.
  - injection H as <- <- <- <-. intros k x [Hk|Hk].
    + injection Hk as <- <-. rewrite Hh. exact Hs.
    + exact (Hrest k x Hk).
  - injection H as <- <- <- <-. intros k x [Hk|Hk].
    + injection Hk as <- <-. rewrite Hh. exact Hs.
    + exact (Hrest k x Hk).
  - destruct (get_next_chunk n st) as [[[[i' c'] e'] rest']|] eqn:E'; [|discriminate].
    injection H as <- <- <- <-.
    pose proof (IH i' c' e' rest' Hrest eq_refl) as Hrest'.
    intros k x [Hk|Hk].
    + injection Hk as <- <-. exact Hs.
    + exact (Hrest' k x Hk).
Qed.

(** Each change to the server's state keeps the headers of every stream
    set; in particular a stream enters the state only through
    [ServerSession::new_headers], with its headers already set. *)
Lemma server_step_headers st st' :
  all_headers_set st -> server_step st st' -> all_headers_set st'.
Proof.
  intros Hall Hstep; destruct Hstep as
    [st i hs|st i d|st i|st resp st' Hstage|st i c e st' Hnext|st]; cbn.
  - unfold ServerSession.new_headers; cbn [ServerSession.state ServerSession.factory].
    destruct (SessionState.get_stream_mut st i) as [[s put]|] eqn:Hmut; cbn.
    + apply (all_headers_set_put _ _ _ _ _ Hall Hmut). cbn. discriminate.
    + unfold SessionState.insert_stream.
      destruct (SessionState.get_stream_ref st _); [exact Hall|].
      intros j x Hin. apply in_app_or in Hin as [Hin|[Heq|[]]].
      * exact (Hall j x Hin).
      * injection Heq as _ <-. cbn. discriminate.
  - unfold ServerSession.new_data_chunk; cbn [ServerSession.state ServerSession.factory].
    destruct (SessionState.get_stream_mut st i) as [[s put]|] eqn:Hmut; cbn; [|exact Hall].
    apply (all_headers_set_put _ _ _ _ _ Hall Hmut). cbn. auto.
  - unfold ServerSession.end_of_stream; cbn [ServerSession.state ServerSession.factory].
    destruct (SessionState.get_stream_mut st i) as [[s put]|] eqn:Hmut; cbn; [|exact Hall].
    apply (all_headers_set_put _ _ _ _ _ Hall Hmut). cbn. auto.
  - unfold SimpleServer.stage_response in Hstage.
    destruct (SessionState.get_stream_mut st (SimpleServer.resp_stream_id resp))
      as [[s put]|] eqn:Hmut; [|discriminate].
    injection Hstage as <-.
    apply (all_headers_set_put _ _ _ _ _ Hall Hmut). cbn. auto.
  - exact (get_next_chunk_headers _ _ _ _ _ _ Hall Hnext).
  - unfold SimpleServer.reap_streams, SessionState.get_closed; cbn [snd].
    intros j x Hin. apply filter_In in Hin as [Hin _]. exact (Hall j x Hin).
Qed.

Lemma server_reachable_headers st :
  server_reachable st -> all_headers_set st.
Proof.
  induction 1 as [|st st' _ IH Hstep].
  - intros i s [].
  - exact (server_step_headers _ _ IH Hstep).
Qed.

Lemma collect_responses_some handler closed :
  (forall i s, In (i, s) closed -> DefaultStream.headers s <> None) ->
  exists resps, SimpleServer.collect_responses handler closed = Some resps.
Proof.
  induction closed as [|[i s] closed IH]; intros Hall; cbn.
  - eexists; reflexivity.
  - destruct (DefaultStream.headers s) as [hs|] eqn:Hs.
    + destruct IH as [resps ->].
      * intros j x Hin. apply (Hall j x). right. exact Hin.
      * eexists; reflexivity.
    + exfalso. exact (Hall i s (or_introl eq_refl) Hs).
Qed.

(** C10: in every state a [SimpleServer] reaches, every stream has its
    headers set, so [handle_requests] never hits the panic of its
    [headers.as_ref().unwrap()]: it yields the handler's responses for
    whatever handler is run. *)
Theorem server_streams_have_headers (st : SessionState.t) :
  server_reachable st ->
  all_headers_set st /\
  forall handler, exists resps, SimpleServer.handle_requests handler st = Some resps.
Proof.
  intros Hreach. pose proof (server_reachable_headers st Hreach) as Hall.
  split; [exact Hall|].
  intros handler. apply collect_responses_some.
  intros i s Hin. apply filter_In in Hin as [Hin _]. exact (Hall i s Hin).
Qed.

Lemma one_request_reachable : server_reachable one_request_state.
Proof.
  eapply reach_step; [|apply step_end_of_stream].
  eapply reach_step; [|apply step_new_data_chunk].
  eapply reach_step; [|apply step_new_headers].
  apply reach_new.
Qed.

Lemma server_streams_have_headers_witness :
  server_reachable one_request_state /\
  all_headers_set one_request_state /\
  (forall handler, exists resps,
     SimpleServer.handle_requests handler one_request_state = Some resps).
Proof.
  split; [exact one_request_reachable|].
  exact (server_streams_have_headers one_request_state one_request_reachable).
Defined.

(* ------------------------------------------------------------------ *)
(** ** Further properties of the code *)

(** Replaces the constant powers of two by their values, for [lia]. *)
Ltac num_pow :=
  repeat match goal with
  | H : context [2 ^ ?k] |- _ =>
      let v := eval vm_compute in (2 ^ k) in change (2 ^ k) with v in H
  | |- context [2 ^ ?k] =>
      let v := eval vm_compute in (2 ^ k) in change (2 ^ k) with v
  end.

Lemma lor_add x b k : 0 <= k -> x mod 2 ^ k = 0 -> 0 <= b < 2 ^ k -> Z.lor x b = x + b.
Proof.
  intros Hk Hx Hb.
  assert (Hl : Z.land x b = 0).
  { apply Z.bits_inj'; intros i Hi. rewrite Z.land_spec, Z.bits_0.
    destruct (Z.ltb_spec i k).
    - rewrite <- (Z.mod_pow2_bits_low x k i) by lia. rewrite Hx, Z.bits_0. reflexivity.
    - rewrite (testbit_above_width b k i) by lia. apply andb_false_r. }
  rewrite <- Z.lxor_lor by exact Hl. symmetry. apply Z.add_nocarry_lxor. exact Hl.
Qed.

Lemma u32_of_bytes a b c d :
  0 <= a < 2 ^ 8 -> 0 <= b < 2 ^ 8 -> 0 <= c < 2 ^ 8 -> 0 <= d < 2 ^ 8 ->
  Z.lor (Z.lor (Z.lor (Z.shiftl a 24) (Z.shiftl b 16)) (Z.shiftl c 8)) d =
  a * 2 ^ 24 + b * 2 ^ 16 + c * 2 ^ 8 + d.
Proof.
  intros Ha Hb Hc Hd. rewrite !Z.shiftl_mul_pow2 by lia.
  rewrite (lor_add (a * 2 ^ 24) (b * 2 ^ 16) 24) by (num_pow; Z.div_mod_to_equations; lia).
  rewrite (lor_add (a * 2 ^ 24 + b * 2 ^ 16) (c * 2 ^ 8) 16) by (num_pow; Z.div_mod_to_equations; lia).
  rewrite (lor_add _ d 8) by (num_pow; Z.div_mod_to_equations; lia).
  reflexivity.
Qed.

Lemma u24_of_bytes a b c :
  0 <= a < 2 ^ 8 -> 0 <= b < 2 ^ 8 -> 0 <= c < 2 ^ 8 ->
  Z.lor (Z.lor (Z.shiftl a 16) (Z.shiftl b 8)) c = a * 2 ^ 16 + b * 2 ^ 8 + c.
Proof.
  intros Ha Hb Hc. rewrite !Z.shiftl_mul_pow2 by lia.
  rewrite (lor_add (a * 2 ^ 16) (b * 2 ^ 8) 16) by (num_pow; Z.div_mod_to_equations; lia).
  rewrite (lor_add _ c 8) by (num_pow; Z.div_mod_to_equations; lia).
  reflexivity.
Qed.

Lemma write_u32_bytes a b c d :
  0 <= a < 2 ^ 8 -> 0 <= b < 2 ^ 8 -> 0 <= c < 2 ^ 8 -> 0 <= d < 2 ^ 8 ->
  write_u32 (a * 2 ^ 24 + b * 2 ^ 16 + c * 2 ^ 8 + d) = [a; b; c; d].
Proof.
  intros Ha Hb Hc Hd. unfold write_u32, as_u8.
  rewrite !Z.shiftr_div_pow2 by lia. num_pow.
  f_equal; [|f_equal; [|f_equal; [|f_equal]]]; Z.div_mod_to_equations; lia.
Qed.

Lemma ping_header_bytes fl :
  pack_header (8, 6, fl, 0) = [0; 0; 8; 6; fl; 0; 0; 0; 0].
Proof. reflexivity. Qed.

Lemma ping_data_halves u0 u4 :
  0 <= u0 < 2 ^ 32 -> 0 <= u4 < 2 ^ 32 ->
  as_u32 (Z.shiftr (Z.lor (as_u64 (Z.shiftl u0 32)) u4) 32) = u0 /\
  as_u32 (Z.lor (as_u64 (Z.shiftl u0 32)) u4) = u4.
Proof.
  intros H0 H4. unfold as_u64, as_u32.
  rewrite Z.shiftl_mul_pow2, (Z.mod_small (u0 * 2 ^ 32)) by (num_pow; lia).
  rewrite (lor_add _ u4 32) by (num_pow; Z.div_mod_to_equations; lia).
  rewrite Z.shiftr_div_pow2 by lia.
  num_pow. split; Z.div_mod_to_equations; lia.
Qed.

(** Extra X1: a 17-byte buffer of bytes whose reserved stream-id bit is
    clear and that [PingFrame::from_raw] accepts is re-emitted byte for
    byte by [serialize_into]. *)
Lemma ping_serialize_parse_bytes (buf : list byte) (f : Ping.PingFrame) :
  Forall (fun b => 0 <= b < 2 ^ 8) buf ->
  length buf = 17%nat ->
  nth 5 buf 0 < 128 ->
  parse_ping buf = Some f ->
  Ping.serialize_into f = buf.
Proof.
  intros Hbytes Hlen H5 Hparse.
  do 17 (destruct buf as [|? buf]; [discriminate|]).
  destruct buf; [|discriminate].
  repeat match goal with
         | H : Forall _ (_ :: _) |- _ => apply Forall_cons_iff in H as [? H]
         end.
  cbn [nth] in H5.
  unfold parse_ping, raw_frame_parse, unpack_header in Hparse.
  cbn [length Nat.ltb Nat.leb firstn skipn nth] in Hparse.
  assert (Hland : Z.land b4 127 = b4).
  { change 127 with (Z.ones 7). rewrite Z.land_ones by lia.
    apply Z.mod_small. lia. }
  rewrite Hland, u24_of_bytes, u32_of_bytes in Hparse by assumption.
  destruct (Z.of_nat 8 <? b * 2 ^ 16 + b0 * 2 ^ 8 + b1); [discriminate|].
  unfold Ping.from_raw in Hparse; cbn [raw_header raw_payload] in Hparse.
  destruct (Z.eqb_spec (b * 2 ^ 16 + b0 * 2 ^ 8 + b1) Ping.PING_FRAME_LEN) as [Hl|];
    [|discriminate].
  destruct (Z.eqb_spec b2 Ping.PING_FRAME_TYPE) as [Ht|]; [|discriminate].
  destruct (Z.eqb_spec (b4 * 2 ^ 24 + b5 * 2 ^ 16 + b6 * 2 ^ 8 + b7) 0) as [Hs|];
    [|discriminate].
  cbn [negb] in Hparse.
  unfold Ping.PING_FRAME_LEN, Ping.PING_FRAME_TYPE in *.
  assert (b = 0 /\ b0 = 0 /\ b1 = 8) as (-> & -> & ->) by (num_pow; lia).
  assert (b4 = 0 /\ b5 = 0 /\ b6 = 0 /\ b7 = 0) as (-> & -> & -> & ->) by (num_pow; lia).
  subst b2.
  apply (f_equal (fun o => match o with Some x => x | None => f end)) in Hparse.
  cbv beta iota in Hparse. subst f.
  replace (Z.to_nat (0 * 2 ^ 16 + 0 * 2 ^ 8 + 8)) with 8%nat by reflexivity.
  cbn [firstn].
  unfold unpack_octets_4; cbn [nth Nat.add].
  rewrite !u32_of_bytes by assumption.
  unfold Ping.serialize_into, Ping.get_header.
  cbn -[Z.shiftl Z.shiftr Z.lor Z.add Z.mul Z.pow as_u64 as_u32 write_u32 pack_header].
  unfold Ping.PING_FRAME_LEN, Ping.PING_FRAME_TYPE. rewrite ping_header_bytes.
  destruct (ping_data_halves (b8 * 2 ^ 24 + b9 * 2 ^ 16 + b10 * 2 ^ 8 + b11)
              (b12 * 2 ^ 24 + b13 * 2 ^ 16 + b14 * 2 ^ 8 + b15)) as [-> ->];
    [num_pow; lia|num_pow; lia|].
  rewrite !write_u32_bytes by assumption. reflexivity.
Qed.

Lemma get_stream_ref_app l1 l2 j :
  SessionState.get_stream_ref (l1 ++ l2) j =
  match SessionState.get_stream_ref l1 j with
  | Some s => Some s
  | None => SessionState.get_stream_ref l2 j
  end.
Proof.
  induction l1 as [|[i s] l1 IH]; cbn; [reflexivity|].
  destruct (i =? j); [reflexivity|exact IH].
Qed.

Lemma get_stream_ref_fresh pre j :
  (forall k, In k (map fst pre) -> k <> j) -> SessionState.get_stream_ref pre j = None.
Proof.
  induction pre as [|[i s] pre IH]; intros Hpre; cbn; [reflexivity|].
  destruct (Z.eqb_spec i j) as [->|_].
  - exfalso. exact (Hpre j (or_introl eq_refl) eq_refl).
  - apply IH. intros k Hk. apply Hpre. right. exact Hk.
Qed.

(** Writing back through [get_stream_mut]: the stream is the new one, the
    other ids see what they saw before. *)
Lemma get_stream_mut_put st i s put s' :
  SessionState.get_stream_mut st i = Some (s, put) ->
  SessionState.get_stream_ref (put s') i = Some s' /\
  forall j, j <> i -> SessionState.get_stream_ref (put s') j = SessionState.get_stream_ref st j.
Proof.
  intros Hmut.
  destruct (get_stream_mut_some _ _ _ _ Hmut) as (pre & post & Hst & Hpre & Hput).
  split.
  - rewrite Hput, get_stream_ref_app, (get_stream_ref_fresh pre i Hpre).
    cbn. rewrite Z.eqb_refl. reflexivity.
  - intros j Hji. rewrite Hput, Hst, !get_stream_ref_app.
    destruct (SessionState.get_stream_ref pre j); [reflexivity|].
    cbn. destruct (Z.eqb_spec i j); [congruence|reflexivity].
Qed.

(** Extra X2: the client session's callbacks for stream [i] leave the
    stream stored under any other id unchanged. *)
Theorem client_callbacks_other_streams (cs : ClientSession.t) (i j : StreamId)
    (d : list byte) (hs : list Header) :
  j <> i ->
  ClientSession.get_stream (ClientSession.new_data_chunk cs i d) j = ClientSession.get_stream cs j /\
  ClientSession.get_stream (ClientSession.new_headers cs i hs) j = ClientSession.get_stream cs j /\
  ClientSession.get_stream (ClientSession.end_of_stream cs i) j = ClientSession.get_stream cs j.
Proof.
  intros Hji. unfold ClientSession.new_data_chunk, ClientSession.new_headers,
    ClientSession.end_of_stream, ClientSession.get_stream.
  destruct (SessionState.get_stream_mut (ClientSession.state cs) i) as [[s put]|] eqn:Hmut;
    [|repeat split].
  cbn [ClientSession.state].
  repeat split; apply (proj2 (get_stream_mut_put _ _ _ _ _ Hmut)); exact Hji.
Qed.

Lemma client_callbacks_other_streams_witness :
  3 <> 1 /\
  ClientSession.get_stream (ClientSession.new_data_chunk (ClientSession.new_stream (ClientSession.new_stream ClientSession.new 1) 3) 1 [7]) 3 = ClientSession.get_stream (ClientSession.new_stream (ClientSession.new_stream ClientSession.new 1) 3) 3 /\
  ClientSession.get_stream (ClientSession.new_headers (ClientSession.new_stream (ClientSession.new_stream ClientSession.new 1) 3) 1 []) 3 = ClientSession.get_stream (ClientSession.new_stream (ClientSession.new_stream ClientSession.new 1) 3) 3 /\
  ClientSession.get_stream (ClientSession.end_of_stream (ClientSession.new_stream (ClientSession.new_stream ClientSession.new 1) 3) 1) 3 = ClientSession.get_stream (ClientSession.new_stream (ClientSession.new_stream ClientSession.new 1) 3) 3.
Proof.
  split; [lia|].
  exact (client_callbacks_other_streams _ 1 3 [7] [] ltac:(lia)).
Defined.

(** Extra X3: the server session's callbacks for stream [i] leave the
    stream stored under any other id unchanged, when the factory builds
    streams that carry the id they are created for. *)
Theorem server_callbacks_other_streams {F} `{StreamFactory F} (ss : ServerSession.t F)
    (i j : StreamId) (d : list byte) (hs : list Header) :
  DefaultStream.id (snd (create (ServerSession.factory ss) i)) = i ->
  j <> i ->
  SessionState.get_stream_ref (ServerSession.state (ServerSession.new_data_chunk ss i d)) j =
    SessionState.get_stream_ref (ServerSession.state ss) j /\
  SessionState.get_stream_ref (ServerSession.state (ServerSession.new_headers ss i hs)) j =
    SessionState.get_stream_ref (ServerSession.state ss) j /\
  SessionState.get_stream_ref (ServerSession.state (ServerSession.end_of_stream ss i)) j =
    SessionState.get_stream_ref (ServerSession.state ss) j.
Proof.
  intros Hid Hji. unfold ServerSession.new_data_chunk, ServerSession.new_headers,
    ServerSession.end_of_stream.
  destruct (SessionState.get_stream_mut (ServerSession.state ss) i) as [[s put]|] eqn:Hmut.
  - cbn [ServerSession.state].
    repeat split; apply (proj2 (get_stream_mut_put _ _ _ _ _ Hmut)); exact Hji.
  - refine (conj eq_refl (conj _ eq_refl)).
    destruct (create (ServerSession.factory ss) i) as [f' stream] eqn:Hc.
    cbn [snd] in Hid. cbn [ServerSession.state].
    unfold SessionState.insert_stream. cbn [DefaultStream.id DefaultStream.set_headers].
    rewrite Hid.
    destruct (SessionState.get_stream_ref (ServerSession.state ss) i); [reflexivity|].
    rewrite get_stream_ref_app. cbn.
    destruct (SessionState.get_stream_ref (ServerSession.state ss) j); [reflexivity|].
    destruct (Z.eqb_spec i j); [congruence|reflexivity].
Qed.

Lemma server_callbacks_other_streams_witness :
  DefaultStream.id (snd (create (ServerSession.factory (ServerSession.mk [(1, DefaultStream.with_id 1); (3, DefaultStream.with_id 3)] SimpleFactoryV)) 5)) = 5 /\
  3 <> 5 /\
  SessionState.get_stream_ref (ServerSession.state (ServerSession.new_data_chunk (ServerSession.mk [(1, DefaultStream.with_id 1); (3, DefaultStream.with_id 3)] SimpleFactoryV) 5 [7])) 3 =
    SessionState.get_stream_ref [(1, DefaultStream.with_id 1); (3, DefaultStream.with_id 3)] 3 /\
  SessionState.get_stream_ref (ServerSession.state (ServerSession.new_headers (ServerSession.mk [(1, DefaultStream.with_id 1); (3, DefaultStream.with_id 3)] SimpleFactoryV) 5 [])) 3 =
    SessionState.get_stream_ref [(1, DefaultStream.with_id 1); (3, DefaultStream.with_id 3)] 3 /\
  SessionState.get_stream_ref (ServerSession.state (ServerSession.end_of_stream (ServerSession.mk [(1, DefaultStream.with_id 1); (3, DefaultStream.with_id 3)] SimpleFactoryV) 5)) 3 =
    SessionState.get_stream_ref [(1, DefaultStream.with_id 1); (3, DefaultStream.with_id 3)] 3.
Proof.
  split; [reflexivity|]. split; [lia|].
  exact (server_callbacks_other_streams
           (ServerSession.mk [(1, DefaultStream.with_id 1); (3, DefaultStream.with_id 3)] SimpleFactoryV)
           5 3 [7] [] eq_refl ltac:(lia)).
Defined.

(** Extra X4: on a known stream, a series of DATA chunks given to the
    client session is appended to the stream's body in order, the rest of
    the stream unchanged. *)
Theorem client_data_chunks_append (cs : ClientSession.t) (i : StreamId) (s : DefaultStream.t)
    (ds : list (list byte)) :
  ClientSession.get_stream cs i = Some s ->
  ClientSession.get_stream (fold_left (fun cs d => ClientSession.new_data_chunk cs i d) ds cs) i =
  Some (DefaultStream.mk (DefaultStream.id s) (DefaultStream.headers s)
          (DefaultStream.body s ++ concat ds) (DefaultStream.closed_local s)
          (DefaultStream.closed_remote s) (DefaultStream.data s)).
Proof.
  revert cs s; induction ds as [|d ds IH]; intros cs s Hs; cbn [fold_left concat].
  - rewrite app_nil_r, Hs. destruct s; reflexivity.
  - unfold ClientSession.get_stream in Hs.
    destruct (get_stream_ref_mut _ _ _ Hs) as [put Hmut].
    rewrite (IH _ (DefaultStream.new_data_chunk d s)).
    + cbn. rewrite app_assoc. reflexivity.
    + unfold ClientSession.new_data_chunk, ClientSession.get_stream.
      rewrite Hmut. cbn [ClientSession.state].
      exact (proj1 (get_stream_mut_put _ _ _ _ _ Hmut)).
Qed.

Lemma client_data_chunks_append_witness :
  ClientSession.get_stream (ClientSession.new_stream ClientSession.new 1) 1 = Some (DefaultStream.with_id 1) /\
  ClientSession.get_stream (fold_left (fun cs d => ClientSession.new_data_chunk cs 1 d) [[1; 2; 3]; [4]]
                              (ClientSession.new_stream ClientSession.new 1)) 1 =
  Some (DefaultStream.mk 1 None ([] ++ concat [[1; 2; 3]; [4]]) false false None).
Proof.
  split; [reflexivity|].
  exact (client_data_chunks_append (ClientSession.new_stream ClientSession.new 1) 1
           (DefaultStream.with_id 1) [[1; 2; 3]; [4]] eq_refl).
Defined.

Lemma get_stream_mut_last st i x :
  SessionState.get_stream_ref st i = None ->
  exists put, SessionState.get_stream_mut (st ++ [(i, x)]) i = Some (x, put) /\
              forall s', put s' = st ++ [(i, s')].
Proof.
  induction st as [|[j s] st IH]; intros Hnone; cbn in *.
  - rewrite Z.eqb_refl. eexists. split; [reflexivity|]. reflexivity.
  - destruct (j =? i); [discriminate|].
    destruct (IH Hnone) as [put [-> Hput]].
    eexists. split; [reflexivity|]. intros s'. cbv beta. rewrite Hput. reflexivity.
Qed.

Lemma collect_responses_app handler l1 l2 :
  SimpleServer.collect_responses handler (l1 ++ l2) =
  match SimpleServer.collect_responses handler l1 with
  | Some r1 =>
      match SimpleServer.collect_responses handler l2 with
      | Some r2 => Some (r1 ++ r2)
      | None => None
      end
  | None => None
  end.
Proof.
  induction l1 as [|[i s] l1 IH]; cbn.
  - destruct (SimpleServer.collect_responses handler l2); reflexivity.
  - destruct (DefaultStream.headers s); [|reflexivity].
    rewrite IH. destruct (SimpleServer.collect_responses handler l1); [|reflexivity].
    destruct (SimpleServer.collect_responses handler l2); reflexivity.
Qed.

Lemma server_chunks_last st i x ds :
  SessionState.get_stream_ref st i = None ->
  fold_left (fun ss d => ServerSession.new_data_chunk ss i d) ds
    (ServerSession.mk (st ++ [(i, x)]) SimpleFactoryV) =
  ServerSession.mk (st ++ [(i, DefaultStream.mk (DefaultStream.id x) (DefaultStream.headers x)
          (DefaultStream.body x ++ concat ds) (DefaultStream.closed_local x)
          (DefaultStream.closed_remote x) (DefaultStream.data x))]) SimpleFactoryV.
Proof.
  intros Hnone. revert x; induction ds as [|d ds IH]; intros x; cbn [fold_left concat].
  - rewrite app_nil_r. destruct x; reflexivity.
  - destruct (get_stream_mut_last st i x Hnone) as [put [Hmut Hput]].
    assert (Hstep : ServerSession.new_data_chunk (ServerSession.mk (st ++ [(i, x)]) SimpleFactoryV) i d
                    = ServerSession.mk (st ++ [(i, DefaultStream.new_data_chunk d x)]) SimpleFactoryV).
    { unfold ServerSession.new_data_chunk; cbn [ServerSession.state ServerSession.factory].
      rewrite Hmut, Hput. reflexivity. }
    rewrite Hstep, IH. cbn. rewrite app_assoc. reflexivity.
Qed.




Lemma in_keys_get_stream_ref st i :
  In i (map fst st) -> SessionState.get_stream_ref st i <> None.
Proof.
  induction st as [|[j s] st IH]; cbn; [intros []|].
  intros [->|Hin]; [rewrite Z.eqb_refl; discriminate|].
  destruct (j =? i); [discriminate|exact (IH Hin)].
Qed.

Lemma stage_response_keys st response st' :
  SimpleServer.stage_response st response = Some st' -> map fst st' = map fst st.
Proof.
  unfold SimpleServer.stage_response.
  destruct (SessionState.get_stream_mut st (SimpleServer.resp_stream_id response))
    as [[s put]|] eqn:Hmut; [|discriminate].
  intros [= <-].
  destruct (get_stream_mut_some _ _ _ _ Hmut) as (pre & post & -> & _ & ->).
  rewrite !map_app. reflexivity.
Qed.

Lemma stage_response_some st response :
  In (SimpleServer.resp_stream_id response) (map fst st) ->
  exists st', SimpleServer.stage_response st response = Some st'.
Proof.
  intros Hin. unfold SimpleServer.stage_response.
  destruct (SessionState.get_stream_mut st (SimpleServer.resp_stream_id response))
    as [[s put]|] eqn:Hmut.
  - eexists; reflexivity.
  - apply get_stream_mut_none in Hmut. exfalso. exact (in_keys_get_stream_ref _ _ Hin Hmut).
Qed.

Lemma collect_responses_ids handler closed resps :
  (forall req, SimpleServer.resp_stream_id (handler req) = SimpleServer.req_stream_id req) ->
  SimpleServer.collect_responses handler closed = Some resps ->
  map SimpleServer.resp_stream_id resps = map fst closed.
Proof.
  intros Hh. revert resps; induction closed as [|[i s] closed IH]; intros resps; cbn.
  - intros [= <-]. reflexivity.
  - destruct (DefaultStream.headers s) as [hs|]; [|discriminate].
    destruct (SimpleServer.collect_responses handler closed) as [rs|]; [|discriminate].
    intros [= <-]. cbn. rewrite Hh, (IH rs eq_refl). reflexivity.
Qed.

Lemma prepare_responses_keys enc resps :
  forall st sender,
  (forall r, In r resps -> In (SimpleServer.resp_stream_id r) (map fst st)) ->
  match SimpleServer.prepare_responses enc st sender resps with
  | Panicked => False
  | Returned (Ok (_, sender')) =>
      Transport.output sender' = Transport.output sender ++
        map (fun r => HeadersFrame (HeadersFrame.mk (SimpleServer.resp_stream_id r)
                        (enc (SimpleServer.resp_headers r))
                        (Z.lor HeadersFrame.END_HEADERS 0))) resps
  | Returned (Err _) => Transport.write_ok sender = false
  end.
Proof.
  induction resps as [|r resps IH]; intros st sender Hin; cbn.
  - rewrite app_nil_r. reflexivity.
  - unfold SimpleServer.start_response, Transport.send_frame.
    destruct (Transport.write_ok sender) eqn:Hw; [|reflexivity].
    destruct (stage_response_some st r (Hin r (or_introl eq_refl))) as [st' Hst'].
    rewrite Hst'.
    specialize (IH st' (Transport.mk (Transport.input sender)
      (Transport.output sender ++ [HeadersFrame (HeadersFrame.mk (SimpleServer.resp_stream_id r)
         (enc (SimpleServer.resp_headers r)) (Z.lor HeadersFrame.END_HEADERS 0))])
      (Transport.split_ok sender) (Transport.write_ok sender))).
    rewrite (stage_response_keys _ _ _ Hst') in IH.
    specialize (IH (fun r' H' => Hin r' (or_intror H'))).
    rewrite Hw in IH.
    destruct (SimpleServer.prepare_responses enc st' _ resps) as [[[st'' sender'']|e]|];
      cbn in IH |- *; [|exact IH|exact IH].
    rewrite IH, <- app_assoc. reflexivity.
Qed.


Lemma get_next_chunk_none n st :
  get_next_chunk n st = None ->
  forall i s, In (i, s) st ->
  DefaultStream.closed_local s = true \/ DefaultStream.data s = None.
Proof.
  induction st as [|[j s] st IH]; cbn; [intros _ i s []|].
  unfold get_data_chunk at 1.
  destruct (DefaultStream.closed_local s) eqn:Hcl.
  - destruct (get_next_chunk n st) as [[[[? ?] ?] ?]|]; [discriminate|].
    intros _ i x [Heq|Hin]; [injection Heq as <- <-; auto|exact (IH eq_refl i x Hin)].
  - destruct (DefaultStream.data s) as [d|] eqn:Hd.
    + destruct (skipn n d); discriminate.
    + destruct (get_next_chunk n st) as [[[[? ?] ?] ?]|]; [discriminate|].
      intros _ i x [Heq|Hin]; [injection Heq as <- <-; auto|exact (IH eq_refl i x Hin)].
Qed.

Lemma get_next_chunk_length n st i c e st' :
  get_next_chunk n st = Some (i, c, e, st') -> (length c <= n)%nat.
Proof.
  revert i c e st'; induction st as [|[j s] st IH]; cbn; intros i c e st'; [discriminate|].
  unfold get_data_chunk at 1.
  destruct (DefaultStream.closed_local s).
  - destruct (get_next_chunk n st) as [[[[i' c'] e'] r']|] eqn:E; [|discriminate].
    intros [= <- <- <- <-]. exact (IH _ _ _ _ eq_refl).
  - destruct (DefaultStream.data s) as [d|].
    + destruct (skipn n d); intros [= <- <- <- <-]; apply firstn_le_length.
    + destruct (get_next_chunk n st) as [[[[i' c'] e'] r']|] eqn:E; [|discriminate].
      intros [= <- <- <- <-]. exact (IH _ _ _ _ eq_refl).
Qed.

(** Extra X9: on a connection that can send, [send_next_data] either
    sends exactly one DATA frame of at most 8 KiB and answers [Sent], or
    changes nothing and answers [Nothing] because no stream has data staged
    and open to send. *)
Theorem server_send_next_data_frame {F} `{StreamFactory F} (sc : ServerConnection.t F) :
  can_send (ServerConnection.conn sc) = true ->
  let '(sc', r) := ServerConnection.send_next_data sc in
  match r with
  | Ok Nothing =>
      sc' = sc /\
      forall i s, In (i, s) (ServerConnection.state sc) ->
        DefaultStream.closed_local s = true \/ DefaultStream.data s = None
  | Ok Sent =>
      exists i c (e : bool),
        sent (sender (ServerConnection.conn sc')) =
          sent (sender (ServerConnection.conn sc)) ++
          [DataFrame (DataFrame.mk i c (if e then DataFrame.END_STREAM else 0))] /\
        (length c <= 8 * 1024)%nat
  | Err _ => False
  end.
Proof.
  destruct sc as [[[s b] rcv g] st f]; unfold can_send; cbn [ServerConnection.conn sender broken goaway].
  intros Hcs. apply andb_true_iff in Hcs as [Hg Hb].
  destruct g; [discriminate|]. destruct b; [discriminate|].
  unfold ServerConnection.send_next_data; cbn [ServerConnection.state].
  destruct (get_next_chunk MAX_CHUNK_SIZE st) as [[[[i c] e] st']|] eqn:Hn.
  - unfold send_data, send_frame, send_frame_on; cbn.
    exists i, c, e. split; [reflexivity|].
    exact (get_next_chunk_length _ _ _ _ _ _ Hn).
  - split; [reflexivity|]. exact (get_next_chunk_none _ _ Hn).
Qed.

Lemma ping_serialize_parse_bytes_witness :
  parse_ping ping_example_bytes = Some (Ping.mkPingFrame 72623859790382856 0) /\
  Ping.serialize_into (Ping.mkPingFrame 72623859790382856 0) = ping_example_bytes.
Proof.
  split; [vm_compute; reflexivity|].
  apply ping_serialize_parse_bytes.
  - unfold ping_example_bytes; repeat constructor; lia.
  - reflexivity.
  - vm_compute; reflexivity.
  - vm_compute; reflexivity.
Defined.




Lemma server_send_next_data_frame_witness :
  can_send (ServerConnection.conn staged_connection) = true /\
  let '(sc', r) := ServerConnection.send_next_data staged_connection in
  match r with
  | Ok Nothing =>
      sc' = staged_connection /\
      forall i s, In (i, s) (ServerConnection.state staged_connection) ->
        DefaultStream.closed_local s = true \/ DefaultStream.data s = None
  | Ok Sent =>
      exists i c (e : bool),
        sent (sender (ServerConnection.conn sc')) =
          sent (sender (ServerConnection.conn staged_connection)) ++
          [DataFrame (DataFrame.mk i c (if e then DataFrame.END_STREAM else 0))] /\
        (length c <= 8 * 1024)%nat
  | Err _ => False
  end.
Proof.
  split; [reflexivity|].
  exact (server_send_next_data_frame staged_connection eq_refl).
Defined.
